(** * View-op rewriting pass and fake-tensor cross-reference mode

    A shallow embedding of two PyTorch modules,

    - [torch/_export/passes/replace_view_ops_with_view_copy_ops_pass.py]
      (module [ReplaceViewOps] below), and
    - [torch/_subclasses/fake_utils.py] (module [FakeUtils] below),

    together with the properties their specification states about them. *)

From Stdlib Require Import String Ascii List ZArith Bool Lia.
From stdpp Require Import base option list gmap sets strings.

Local Open Scope string_scope.
Local Open Scope list_scope.
Local Open Scope stdpp_scope.

(** ** Operator handles

    Python compares operator objects by identity, and the [torch.ops]
    machinery hands out one object per attribute path.  An operator object is
    therefore named by its path: [torch.ops.ns.name.overload] is an
    [OpOverload], [torch.ops.ns.name] an [OpOverloadPacket]. *)
Inductive PyOp : Type :=
  | OpOverload (ns opname overload : string)
  | OpOverloadPacket (ns opname : string).

#[global] Instance PyOp_eq_dec : EqDecision PyOp.
Proof. solve_decision. Defined.

Definition PyOp_to_sum (o : PyOp) : (string * string * string) + (string * string) :=
  match o with
  | OpOverload ns n ov => inl (ns, n, ov)
  | OpOverloadPacket ns n => inr (ns, n)
  end.

Definition PyOp_of_sum (s : (string * string * string) + (string * string)) : PyOp :=
  match s with
  | inl (ns, n, ov) => OpOverload ns n ov
  | inr (ns, n) => OpOverloadPacket ns n
  end.

#[global] Instance PyOp_countable : Countable PyOp.
Proof.
  apply (inj_countable' PyOp_to_sum PyOp_of_sum).
  intros []; reflexivity.
Defined.

(** [torch.ops.aten.<opname>.<overload>] and [torch.ops.aten.<opname>] as
    the two modules write them. *)
Definition aten_op (opname overload : string) : PyOp := OpOverload "aten" opname overload.
Definition aten_packet (opname : string) : PyOp := OpOverloadPacket "aten" opname.

(** ** Calls observed from outside

    Both modules call into code they do not own.  Such a call is recorded in
    a log next to the value computed, so that "how often" and "with which
    arguments" are part of what a function returns. *)
Definition Traced (E A : Type) : Type := (list E * A)%type.

Definition calls {E A} (m : Traced E A) : list E := fst m.
Definition value {E A} (m : Traced E A) : A := snd m.

(** * replace_view_ops_with_view_copy_ops_pass.py *)
Module ReplaceViewOps.

(** [torch._C.FunctionSchema], restricted to the attributes the pass reads. *)
Record AliasInfo : Type := { is_write : bool }.
Record Argument : Type := { alias_info : option AliasInfo }.
Record FunctionSchema : Type := {
  name : string;
  overload_name : string;
  arguments : list Argument
}.

(** The namespace object [torch.ops.aten]: attribute name to overload
    packet, and a packet maps overload names to operator objects.
    [hasattr] is "the lookup succeeds", [getattr] is the lookup. *)
Abbreviation OpNamespace := (gmap string (gmap string PyOp)).

Definition _NON_FUNCTIONAL_OPS_TO_FUNCTIONAL_OPS : gmap PyOp PyOp :=
  {[ aten_op "_unsafe_view" "default" := aten_op "view_copy" "default" ]}.

Definition _BLACK_LISTED_OPS : gset PyOp :=
  {[ aten_packet "sym_size"; aten_packet "sym_stride"; aten_packet "sym_numel" ]}.

(** [s.split("::")]: cut [s] at every occurrence of two colons, scanning
    from the left; [acc] is the piece being read. *)
Fixpoint split_colons (acc s : string) : list string :=
  match s with
  | EmptyString => [acc]
  | String c rest =>
      match rest with
      | EmptyString => [acc +:+ String c EmptyString]
      | String d rest' =>
          if Ascii.eqb c ":" && Ascii.eqb d ":"
          then acc :: split_colons "" rest'
          else split_colons (acc +:+ String c EmptyString) rest
      end
  end.

Definition py_split (s : string) : list string := split_colons "" s.

Definition is_view_op (schema : FunctionSchema) : bool :=
  if Nat.eqb (length (arguments schema)) 0 then false
  else
    match arguments schema with
    | a :: _ => bool_decide (alias_info a <> None)
    | [] => false
    end.

(** [get_view_copy_of_view_op].  The index [1] into the split name is read
    with a default; [split_aten_prefix] below shows that after the
    [startswith] test the list always has that entry. *)
Definition get_view_copy_of_view_op (aten : OpNamespace) (schema : FunctionSchema)
  : option PyOp :=
  if negb (is_view_op schema) then None
  else if String.prefix "aten::" (name schema) then
    let view_op_name := nth 1 (py_split (name schema)) "" in
    let view_op_overload :=
      if bool_decide (overload_name schema <> "") then overload_name schema
      else "default" in
    let view_copy_op_name := view_op_name +:+ "_copy" in
    match aten !! view_copy_op_name with
    | None => None
    | Some view_copy_op_overload_packet =>
        match view_copy_op_overload_packet !! view_op_overload with
        | None => None
        | Some view_copy_op => Some view_copy_op
        end
    end
  else None.

(** The local variables [view_op_name] and [view_op_overload] of
    [get_view_copy_of_view_op], for use in statements. *)
Definition view_op_name_of (schema : FunctionSchema) : string :=
  nth 1 (py_split (name schema)) "".

Definition view_op_overload_of (schema : FunctionSchema) : string :=
  if bool_decide (overload_name schema <> "") then overload_name schema else "default".

(** ** The call site

    [get_view_copy_of_view_op] is annotated to take a
    [torch._C.FunctionSchema], and the definitions above are the function on
    such an object.  [call_operator] hands it the operator object itself.  The
    classes of operator objects (torch/_ops.py) are not among the sources: an
    [OpOverload] keeps its schema in the attribute [_schema], an
    [OpOverloadPacket] has none, and neither has an attribute [arguments]. *)
Inductive PyObject : Type :=
  | SchemaObject (schema : FunctionSchema)
  | OperatorObject (op : PyOp).

(** What a call gives: the value it returns, or the [AttributeError] raised
    for the attribute named. *)
Inductive Answer (A : Type) : Type :=
  | Returned (a : A)
  | AttributeError (attribute : string).
Arguments Returned {A} a.
Arguments AttributeError {A} attribute.

(** [schema.arguments] for the object bound to the parameter [schema]. *)
Definition getattr_arguments (o : PyObject) : Answer (list Argument) :=
  match o with
  | SchemaObject schema => Returned (arguments schema)
  | OperatorObject _ => AttributeError "arguments"
  end.

(** [get_view_copy_of_view_op(o)] for either kind of object.  The first thing
    the call evaluates is [len(schema.arguments)] in [is_view_op] (line 23);
    when that read raises, the call raises; on a schema the call is the
    function defined above. *)
Definition get_view_copy_of_view_op_call (aten : OpNamespace) (o : PyObject)
  : Answer (option PyOp) :=
  match getattr_arguments o with
  | AttributeError attribute => AttributeError attribute
  | Returned _ =>
      match o with
      | SchemaObject schema => Returned (get_view_copy_of_view_op aten schema)
      | OperatorObject _ => AttributeError "arguments"
      end
  end.

Section Pass.
(** What the host of the pass supplies: the argument, keyword, metadata
    and node types of [ExportPassBase.call_operator], that method itself,
    and the [torch.ops.aten] namespace. *)
Context {Args Kwargs Meta Node : Type}.
Variable super_call_operator : PyOp -> Args -> Kwargs -> Meta -> Node.
Variable aten : OpNamespace.

Inductive Call : Type :=
  | SuperCall (op : PyOp) (args : Args) (kwargs : Kwargs) (meta : Meta).

(** [return super().call_operator(op, args, kwargs, meta)] *)
Definition super_call (op : PyOp) (args : Args) (kwargs : Kwargs) (meta : Meta)
  : Traced Call (Answer Node) :=
  ([SuperCall op args kwargs meta], Returned (super_call_operator op args kwargs meta)).

(** [ReplaceViewOpsWithViewCopyOpsPass.call_operator], with the two
    module-level tables as parameters.  Line 68 passes [op], the operator
    object, to [get_view_copy_of_view_op]; an exception raised there leaves
    [call_operator] before any call of the host's method.  An operator
    object is truthy, so the walrus test succeeds exactly when a view-copy
    operator came back. *)
Definition call_operator_with (table : gmap PyOp PyOp) (black : gset PyOp)
    (op : PyOp) (args : Args) (kwargs : Kwargs) (meta : Meta)
  : Traced Call (Answer Node) :=
  match table !! op with
  | Some functional_op => super_call functional_op args kwargs meta
  | None =>
      if bool_decide (op ∈ black) then super_call op args kwargs meta
      else
        match get_view_copy_of_view_op_call aten (OperatorObject op) with
        | AttributeError attribute => ([], AttributeError attribute)
        | Returned (Some view_copy_op) => super_call view_copy_op args kwargs meta
        | Returned None => super_call op args kwargs meta
        end
  end.

Definition call_operator
  : PyOp -> Args -> Kwargs -> Meta -> Traced Call (Answer Node) :=
  call_operator_with _NON_FUNCTIONAL_OPS_TO_FUNCTIONAL_OPS _BLACK_LISTED_OPS.

End Pass.

Arguments SuperCall {Args Kwargs Meta} op args kwargs meta.

End ReplaceViewOps.

(** * fake_utils.py *)
Module FakeUtils.

(** ** Values *)

Inductive DType : Type := float32 | float64 | int32 | int64 | bool_.

#[global] Instance DType_eq_dec : EqDecision DType.
Proof. solve_decision. Defined.

(** A [torch.Tensor] as far as this module looks at one: its metadata, and
    whether the object is an instance of the [FakeTensor] subclass. *)
Record Tensor : Type := {
  shape : list Z;
  dtype : DType;
  stride : list Z;
  is_fake : bool
}.

#[global] Instance Tensor_eq_dec : EqDecision Tensor.
Proof. solve_decision. Defined.

(** Leaves that are not tensors. *)
Inductive Opaque : Type :=
  | PyNone
  | PyInt (z : Z)
  | PyBool (b : bool)
  | PyStr (s : string).

Inductive Leaf : Type :=
  | TensorLeaf (t : Tensor)
  | OpaqueLeaf (v : Opaque).

Inductive Container : Type :=
  | PyTuple
  | PyList
  | PyDict (keys : list string).

#[warnings="-register-all"]
Inductive PyTree : Type :=
  | LeafNode (l : Leaf)
  | ContainerNode (c : Container) (children : list PyTree).

Definition None_ : PyTree := LeafNode (OpaqueLeaf PyNone).

(** [x is not None] *)
Definition is_not_None (x : PyTree) : bool :=
  match x with
  | LeafNode (OpaqueLeaf PyNone) => false
  | _ => true
  end.

(** [isinstance(x, torch.Tensor)]; a [FakeTensor] is a [torch.Tensor]. *)
Definition isinstance_Tensor (x : Leaf) : bool :=
  match x with
  | TensorLeaf _ => true
  | OpaqueLeaf _ => false
  end.

Inductive Exn : Type :=
  | AssertionError (msg : string)
  | RuntimeError (msg : string)
  | UnsupportedFakeTensorException (msg : string)
  | OtherException (msg : string).

Inductive Outcome (A : Type) : Type :=
  | Returns (a : A)
  | Raises (e : Exn).
Arguments Returns {A} a.
Arguments Raises {A} e.

Inductive Tag : Type :=
  | core
  | data_dependent_output
  | dynamic_output_shape
  | inplace_view
  | pointwise
  | view_copy.

#[global] Instance Tag_eq_dec : EqDecision Tag.
Proof. solve_decision. Defined.

(** ** Calls leaving the module, and the monad that logs them

    [EvFromTensor t] is [fake_mode.from_tensor(t)], [EvFakeCall func a] is
    [func] applied to [fake_args] and [fake_kwargs] inside the [FakeTensorMode] block,
    [EvRealCall func a] is [func] applied to [args] and [kwargs] outside it, and
    [EvCompare r f] is [compare_tensor_meta(r, f, check_strides=True)].  The
    argument [a] of a call is the pair [(args, kwargs)] as one tree. *)
Inductive Event : Type :=
  | EvFromTensor (t : Tensor)
  | EvFakeCall (func : PyOp) (a : PyTree)
  | EvRealCall (func : PyOp) (a : PyTree)
  | EvCompare (r_out fake_out : Tensor).

Definition M (A : Type) : Type := Traced Event (Outcome A).

Definition ret {A} (a : A) : M A := ([], Returns a).

Definition raise {A} (e : Exn) : M A := ([], Raises e).

Definition bind {A B} (m : M A) (k : A -> M B) : M B :=
  match m with
  | (l1, Raises e) => (l1, Raises e)
  | (l1, Returns a) => let '(l2, o) := k a in (l1 ++ l2, o)
  end.

(** An external call: log it, then continue with what it answered. *)
Definition call {A} (ev : Event) (answer : Outcome A) : M A := ([ev], answer).

(** [try: body  except UnsupportedFakeTensorException: handler] *)
Definition try_except_Unsupported {A} (body : M A) (handler : M A) : M A :=
  match body with
  | (l1, Raises (UnsupportedFakeTensorException _)) =>
      let '(l2, o) := handler in (l1 ++ l2, o)
  | other => other
  end.

(** [try: body  except Exception as e: handler(e)] *)
Definition try_except_Exception {A} (body : M A) (handler : Exn -> M A) : M A :=
  match body with
  | (l1, Raises e) => let '(l2, o) := handler e in (l1 ++ l2, o)
  | other => other
  end.

Notation "x <- m ;; k" := (bind m (fun x => k))
  (at level 100, m at next level, right associativity).
Notation "m ;;; k" := (bind m (fun _ => k))
  (at level 100, right associativity).

(** [[f(x) for x in xs]], left to right, stopping at the first exception. *)
Fixpoint mapM {A B} (f : A -> M B) (xs : list A) : M (list B) :=
  match xs with
  | [] => ret []
  | x :: xs' => y <- f x ;; ys <- mapM f xs' ;; ret (y :: ys)
  end.

(** ** torch.utils._pytree *)

(** Modelled from the spec: [tree_flatten] of [torch.utils._pytree], which is
    not among the sources; it lists the leaves of a tree in
    container-walking order (the first component of what the Python function
    returns). *)
Fixpoint tree_flatten (t : PyTree) : list Leaf :=
  match t with
  | LeafNode l => [l]
  | ContainerNode _ children =>
      (fix flatten_all (ts : list PyTree) : list Leaf :=
         match ts with
         | [] => []
         | t' :: ts' => tree_flatten t' ++ flatten_all ts'
         end) children
  end.

(** Rebuild a tree of the shape of [t] from a list of leaves, returning the
    leaves left over. *)
Fixpoint tree_unflatten (leaves : list Leaf) (t : PyTree) : PyTree * list Leaf :=
  match t with
  | LeafNode l =>
      match leaves with
      | l' :: rest => (LeafNode l', rest)
      | [] => (LeafNode l, [])
      end
  | ContainerNode c children =>
      let '(children', rest) :=
        (fix unflatten_all (leaves : list Leaf) (ts : list PyTree)
           : list PyTree * list Leaf :=
           match ts with
           | [] => ([], leaves)
           | t' :: ts' =>
               let '(u, rest1) := tree_unflatten leaves t' in
               let '(us, rest2) := unflatten_all rest1 ts' in
               (u :: us, rest2)
           end) leaves children in
      (ContainerNode c children', rest)
  end.

(** Modelled from the spec: [tree_map] of [torch.utils._pytree], which is not
    among the sources; it converts every leaf, recursively, preserving the
    container structure: flatten, apply [fn] to the leaves in order,
    rebuild. *)
Definition tree_map (fn : Leaf -> M Leaf) (pytree : PyTree) : M PyTree :=
  leaves <- mapM fn (tree_flatten pytree) ;;
  ret (fst (tree_unflatten leaves pytree)).

(** ** torch._prims.utils *)

(** Modelled from the spec: [compare_tensor_meta] of [torch._prims.utils],
    which is not among the sources; it compares shape, dtype and, with
    [check_strides], the full stride layout, and fails on the first field
    that differs.  [None] is "returned normally". *)
Definition compare_tensor_meta (a b : Tensor) (check_strides : bool) : option Exn :=
  if bool_decide (shape a <> shape b) then
    Some (AssertionError "Shapes are not equal!")
  else if bool_decide (dtype a <> dtype b) then
    Some (AssertionError "Dtypes are not equal!")
  else if check_strides && bool_decide (stride a <> stride b) then
    Some (RuntimeError "Stride mismatch!")
  else None.

(** [repr(e)] for an exception carrying one message without quote
    characters. *)
Definition repr (e : Exn) : string :=
  match e with
  | AssertionError m => "AssertionError('" +:+ m +:+ "')"
  | RuntimeError m => "RuntimeError('" +:+ m +:+ "')"
  | UnsupportedFakeTensorException m => "UnsupportedFakeTensorException('" +:+ m +:+ "')"
  | OtherException m => "Exception('" +:+ m +:+ "')"
  end.

(** ** CrossRefFakeMode *)

(** [(args, kwargs)], the tree handed to [tree_map] and, unpacked again, to
    [func]. *)
Definition pack (args : list PyTree) (kwargs : list (string * PyTree)) : PyTree :=
  ContainerNode PyTuple
    [ContainerNode PyTuple args; ContainerNode (PyDict (map fst kwargs)) (map snd kwargs)].

(** [kwargs or {}] *)
Definition kwargs_or_empty (kwargs : option (list (string * PyTree)))
  : list (string * PyTree) :=
  match kwargs with
  | Some (kv :: kvs) => kv :: kvs
  | _ => []
  end.

Section CrossRefFakeMode.
(** [self.ignore_op_fn]; what the runtime answers: [func.tags], [str(func)],
    [fake_mode.from_tensor], and [func] called inside and outside the fake
    mode. *)
Variable ignore_op_fn : PyOp -> bool.
Variable tags : PyOp -> list Tag.
Variable str : PyOp -> string.
Variable from_tensor : Tensor -> Outcome Tensor.
Variable func_fake : PyOp -> PyTree -> Outcome PyTree.
Variable func_real : PyOp -> PyTree -> Outcome PyTree.

(** [on_tensor(f)], the closure [go] *)
Definition on_tensor (f : Tensor -> M Tensor) (t : Leaf) : M Leaf :=
  match t with
  | TensorLeaf x =>
      if is_fake x then raise (AssertionError "FakeTensor -> Real Cross Ref NYI")
      else y <- f x ;; ret (TensorLeaf y)
  | OpaqueLeaf _ => ret t
  end.

Definition fake_mode_from_tensor (t : Tensor) : M Tensor :=
  call (EvFromTensor t) (from_tensor t).

(** The condition of the [if] at lines 33-43. *)
Definition shadowed (func : PyOp) : bool :=
  negb (bool_decide (func ∈ [ aten_op "lift_fresh" "default";
                              aten_op "lift_fresh_copy" "default";
                              aten_op "set_" "source_Storage_storage_offset" ]))
  && negb (ignore_op_fn func)
  && negb (bool_decide (dynamic_output_shape ∈ tags func))
  && negb (bool_decide (inplace_view ∈ tags func))
  && negb (bool_decide (data_dependent_output ∈ tags func)).

(** The body of the [with FakeTensorMode()] block, lines 46-47. *)
Definition fake_block (func : PyOp) (args : list PyTree)
    (kwargs : list (string * PyTree)) : M PyTree :=
  fake_args_kwargs <- tree_map (on_tensor fake_mode_from_tensor) (pack args kwargs) ;;
  call (EvFakeCall func fake_args_kwargs) (func_fake func fake_args_kwargs).

(** Lines 29-49: the value of [fake_r] when the real call is reached. *)
Definition shadow_phase (func : PyOp) (args : list PyTree)
    (kwargs : list (string * PyTree)) : M PyTree :=
  if shadowed func then
    try_except_Unsupported (fake_block func args kwargs) (ret None_)
  else ret None_.

(** Lines 53-60: the loop over the zipped leaves.  After the assertion the
    two leaves are of one kind, so the mixed cases of the inner [match] are
    never reached. *)
Fixpoint compare_leaves (func : PyOp) (pairs : list (Leaf * Leaf)) : M unit :=
  match pairs with
  | [] => ret tt
  | (r_out, fake_out) :: rest =>
      let r_ten := isinstance_Tensor r_out in
      if negb (Bool.eqb r_ten (isinstance_Tensor fake_out)) then
        raise (AssertionError "")
      else
        match r_out, fake_out with
        | TensorLeaf r_t, TensorLeaf fake_t =>
            try_except_Exception
              (call (EvCompare r_t fake_t)
                 (match compare_tensor_meta r_t fake_t true with
                  | Some e => Raises e
                  | None => Returns tt
                  end))
              (fun e => raise (RuntimeError ("Mismatch on " +:+ str func +:+ ": " +:+ repr e)))
            ;;; compare_leaves func rest
        | _, _ => compare_leaves func rest
        end
  end.

(** [CrossRefFakeMode.__torch_dispatch__] *)
Definition __torch_dispatch__ (func : PyOp) (types : list string)
    (args : list PyTree) (kwargs : option (list (string * PyTree))) : M PyTree :=
  let kwargs := kwargs_or_empty kwargs in
  fake_r <- shadow_phase func args kwargs ;;
  r <- call (EvRealCall func (pack args kwargs)) (func_real func (pack args kwargs)) ;;
  (if is_not_None fake_r then
     compare_leaves func (combine (tree_flatten r) (tree_flatten fake_r))
   else ret tt) ;;;
  ret r.

End CrossRefFakeMode.

(** ** Vocabulary for statements about the log and the results *)

Definition is_real_call (ev : Event) : bool :=
  match ev with
  | EvRealCall _ _ => true
  | _ => false
  end.

Definition is_fake_call (ev : Event) : bool :=
  match ev with
  | EvFakeCall _ _ => true
  | _ => false
  end.

Definition is_from_tensor (ev : Event) : bool :=
  match ev with
  | EvFromTensor _ => true
  | _ => false
  end.

(** The two leaves are both tensors or both not. *)
Definition same_kind (p : Leaf * Leaf) : Prop :=
  isinstance_Tensor (fst p) = isinstance_Tensor (snd p).

(** Shape, dtype or stride layout of the two tensors differ. *)
Definition meta_differs (a b : Tensor) : Prop :=
  shape a <> shape b \/ dtype a <> dtype b \/ stride a <> stride b.

(** The pair passes both checks of the loop: same kind, and for two tensors
    the same shape, dtype and stride layout. *)
Definition pair_agrees (p : Leaf * Leaf) : Prop :=
  match p with
  | (TensorLeaf a, TensorLeaf b) =>
      shape a = shape b /\ dtype a = dtype b /\ stride a = stride b
  | (OpaqueLeaf _, OpaqueLeaf _) => True
  | _ => False
  end.

(** The comparisons the loop logs on pairs that all pass. *)
Definition compare_events (pairs : list (Leaf * Leaf)) : list Event :=
  flat_map (fun p => match p with
                     | (TensorLeaf a, TensorLeaf b) => [EvCompare a b]
                     | _ => []
                     end) pairs.

Definition is_compare (ev : Event) : bool :=
  match ev with
  | EvCompare _ _ => true
  | _ => false
  end.

(** The tensors among a list of leaves, in order. *)
Definition tensor_leaves (xs : list Leaf) : list Tensor :=
  flat_map (fun x => match x with
                     | TensorLeaf t => [t]
                     | OpaqueLeaf _ => []
                     end) xs.

(** A leaf with its tensor replaced, other leaves as they are. *)
Definition lifted_leaf (lifted : Tensor -> Tensor) (x : Leaf) : Leaf :=
  match x with
  | TensorLeaf t => TensorLeaf (lifted t)
  | OpaqueLeaf _ => x
  end.

(** The tree with every leaf replaced and the containers as they are. *)
Fixpoint map_leaves (f : Leaf -> Leaf) (t : PyTree) : PyTree :=
  match t with
  | LeafNode l => LeafNode (f l)
  | ContainerNode c children => ContainerNode c (List.map (map_leaves f) children)
  end.

(** ** The class *)

(** An instance of [CrossRefFakeMode]: its one attribute. *)
Record CrossRefFakeMode : Type := { ignore_op_fn_of : PyOp -> bool }.

(** [CrossRefFakeMode.__init__], with [None] for the default argument. *)
Definition __init__ (ignore_op_fn : option (PyOp -> bool)) : CrossRefFakeMode :=
  {| ignore_op_fn_of :=
       match ignore_op_fn with
       | Some f => f
       | None => fun fn => false
       end |}.

End FakeUtils.

(** * Concrete hosts and runtimes

    Small instances of what the two modules take from their surroundings,
    used to run the definitions on examples. *)
Module Fixtures.
Import ReplaceViewOps.

Definition aliased : Argument := {| alias_info := Some {| is_write := false |} |}.
Definition plain : Argument := {| alias_info := None |}.

(** A host whose [call_operator] answers with the operator it was given. *)
Definition echo_host (op : PyOp) (args kwargs meta : unit) : PyOp := op.

(** [aten::transpose.int(Tensor(a) self, int dim0, int dim1)], with
    [transpose_copy.int] registered. *)
Definition transpose_schema (op : PyOp) : FunctionSchema :=
  {| name := "aten::transpose"; overload_name := "int";
     arguments := [aliased; plain; plain] |}.

Definition transpose_aten : OpNamespace :=
  {[ "transpose_copy" := {[ "int" := aten_op "transpose_copy" "int" ]} ]}.


(** A schema whose name has a further segment after the operator name. *)
Definition nested_schema (op : PyOp) : FunctionSchema :=
  {| name := "aten::transpose::extra"; overload_name := "int";
     arguments := [aliased; plain; plain] |}.

(** ** A runtime for the cross-reference mode *)
Import FakeUtils.

Definition never_ignore (func : PyOp) : bool := false.
Definition no_tags (func : PyOp) : list Tag := [].
Definition dynamic_tags (func : PyOp) : list Tag := [dynamic_output_shape].

Definition dotted (func : PyOp) : string :=
  match func with
  | OpOverload ns n ov => ns +:+ "." +:+ n +:+ "." +:+ ov
  | OpOverloadPacket ns n => ns +:+ "." +:+ n
  end.

(** Lifting keeps the metadata and marks the tensor as fake. *)
Definition lift (t : Tensor) : Outcome Tensor :=
  Returns {| shape := shape t; dtype := dtype t; stride := stride t; is_fake := true |}.

Definition real_vec (n : Z) : Tensor :=
  {| shape := [n]; dtype := float32; stride := [1%Z]; is_fake := false |}.
Definition fake_vec (n : Z) : Tensor :=
  {| shape := [n]; dtype := float32; stride := [1%Z]; is_fake := true |}.

Definition tensor (t : Tensor) : PyTree := LeafNode (TensorLeaf t).
Definition int_ (z : Z) : PyTree := LeafNode (OpaqueLeaf (PyInt z)).

(** Real and fake execution agree: both return a vector of two elements. *)
Definition real_vec2 (func : PyOp) (a : PyTree) : Outcome PyTree :=
  Returns (tensor (real_vec 2)).
Definition fake_vec2 (func : PyOp) (a : PyTree) : Outcome PyTree :=
  Returns (tensor (fake_vec 2)).

(** A fake execution that reports another shape than the real one. *)
Definition fake_vec5 (func : PyOp) (a : PyTree) : Outcome PyTree :=
  Returns (tensor (fake_vec 5)).

(** A fake execution that does not support the call. *)
Definition fake_unsupported (func : PyOp) (a : PyTree) : Outcome PyTree :=
  Raises (UnsupportedFakeTensorException "unsupported").

(** Results with two leaves: the real one starts with an integer, the fake
    one with a tensor, and the second leaves are tensors of different
    shape. *)
Definition real_int_then_vec2 (func : PyOp) (a : PyTree) : Outcome PyTree :=
  Returns (ContainerNode PyTuple [int_ 3; tensor (real_vec 2)]).
Definition fake_vec_then_vec5 (func : PyOp) (a : PyTree) : Outcome PyTree :=
  Returns (ContainerNode PyTuple [tensor (fake_vec 1); tensor (fake_vec 5)]).

(** A lifting that does not support the tensor it is given. *)
Definition lift_unsupported (t : Tensor) : Outcome Tensor :=
  Raises (UnsupportedFakeTensorException "unsupported").

(** The calls used in the examples. *)
Definition add_Tensor : PyOp := aten_op "add" "Tensor".
Definition lift_fresh_default : PyOp := aten_op "lift_fresh" "default".
Definition nonzero_default : PyOp := aten_op "nonzero" "default".
Definition one_real_arg : list PyTree := [tensor (real_vec 2)].
Definition one_fake_arg : list PyTree := [tensor (fake_vec 2)].
Definition real_then_fake_arg : list PyTree := [tensor (real_vec 2); tensor (fake_vec 3)].

(** Executions that fail, and a fake execution that returns [None]. *)
Definition fake_fails (func : PyOp) (a : PyTree) : Outcome PyTree :=
  Raises (OtherException "no fake kernel").
Definition real_fails (func : PyOp) (a : PyTree) : Outcome PyTree :=
  Raises (OtherException "bad argument").
Definition real_unsupported (func : PyOp) (a : PyTree) : Outcome PyTree :=
  Raises (UnsupportedFakeTensorException "raised for real").
Definition fake_None (func : PyOp) (a : PyTree) : Outcome PyTree :=
  Returns None_.

(** A lifting that fails on vectors of three elements, with the unsupported
    signal or with another exception. *)
Definition lift_not_3 (t : Tensor) : Outcome Tensor :=
  if bool_decide (shape t = [3%Z])
  then Raises (UnsupportedFakeTensorException "unsupported")
  else lift t.
Definition lift_breaks_on_3 (t : Tensor) : Outcome Tensor :=
  if bool_decide (shape t = [3%Z])
  then Raises (OtherException "broken")
  else lift t.

Definition as_fake (t : Tensor) : Tensor :=
  {| shape := shape t; dtype := dtype t; stride := stride t; is_fake := true |}.

Definition two_real_args : list PyTree := [tensor (real_vec 2); int_ 1; tensor (real_vec 3)].
Definition alpha_kwarg : list (string * PyTree) := [("alpha", int_ 2)].

(** An execution that returns what it was called with, positional and
    keyword arguments in one tree; the tree for [two_real_args] with
    [alpha_kwarg], as received and after lifting. *)
Definition echo (func : PyOp) (a : PyTree) : Outcome PyTree := Returns a.

Definition two_args_alpha : PyTree :=
  ContainerNode PyTuple
    [ContainerNode PyTuple [tensor (real_vec 2); int_ 1; tensor (real_vec 3)];
     ContainerNode (PyDict ["alpha"]) [int_ 2]].

Definition two_args_alpha_lifted : PyTree :=
  ContainerNode PyTuple
    [ContainerNode PyTuple [tensor (fake_vec 2); int_ 1; tensor (fake_vec 3)];
     ContainerNode (PyDict ["alpha"]) [int_ 2]].

(** A real result with one leaf more than the fake one. *)
Definition real_vec2_then_int (func : PyOp) (a : PyTree) : Outcome PyTree :=
  Returns (ContainerNode PyTuple [tensor (real_vec 2); int_ 7]).

End Fixtures.

(** * Properties of the rewriting pass *)
Module ReplaceViewOpsFacts.
Import ReplaceViewOps.

Lemma split_colons_step (c d : ascii) (s acc : string) :
  split_colons acc (String c (String d s)) =
  if Ascii.eqb c ":" && Ascii.eqb d ":" then acc :: split_colons "" s
  else split_colons (acc +:+ String c EmptyString) (String d s).
Proof. reflexivity. Qed.

Lemma split_colons_nonempty (s acc : string) :
  exists x rest, split_colons acc s = x :: rest.
Proof.
  remember (String.length s) as n eqn:Hn.
  revert s acc Hn.
  induction (lt_wf n) as [n _ IH]; intros s acc ->.
  destruct s as [|c [|d s']]; [simpl; eauto..|].
  rewrite split_colons_step.
  destruct (Ascii.eqb c ":" && Ascii.eqb d ":"); eauto.
  eapply (IH (String.length (String d s'))); simpl; [lia | reflexivity].
Qed.

Lemma prefix_true_app (p s : string) :
  String.prefix p s = true -> exists t, s = p +:+ t.
Proof.
  revert s; induction p as [|a p IH]; intros s H.
  - exists s; reflexivity.
  - destruct s as [|b s]; [discriminate|].
    cbn [String.prefix] in H.
    destruct (Ascii.ascii_dec a b) as [->|]; [|discriminate].
    destruct (IH _ H) as [t ->]. exists t; reflexivity.
Qed.

(** After [startswith("aten::")] the split name has an entry at index 1, so
    the subscript in [get_view_copy_of_view_op] cannot fail. *)
Lemma split_aten_prefix (s : string) :
  String.prefix "aten::" s = true ->
  exists x rest, py_split s = "aten" :: x :: rest.
Proof.
  intros H. destruct (prefix_true_app _ _ H) as [t ->].
  unfold py_split.
  destruct (split_colons_nonempty t "") as (x & rest & Hx).
  exists x, rest.
  change (split_colons "" ("aten::" +:+ t)) with ("aten" :: split_colons "" t).
  by rewrite Hx.
Qed.

Lemma app_empty_r (s : string) : s +:+ "" = s.
Proof.
  induction s as [|c s IH]; [reflexivity|].
  change (String c (s +:+ "") = String c s). by rewrite IH.
Qed.

Lemma app_snoc_cons (acc : string) (c : ascii) (s : string) :
  (acc +:+ String c "") +:+ s = acc +:+ String c s.
Proof.
  induction acc as [|a acc IH]; [reflexivity|].
  change (String a ((acc +:+ String c "") +:+ s) = String a (acc +:+ String c s)).
  by rewrite IH.
Qed.

(** A name without any colon after the namespace splits into the namespace
    and that name. *)
Lemma split_colons_no_colon (s acc : string) :
  (forall c, In c (list_ascii_of_string s) -> c <> ":"%char) ->
  split_colons acc s = [acc +:+ s].
Proof.
  revert acc; induction s as [|c s IH]; intros acc Hs.
  - simpl. by rewrite app_empty_r.
  - destruct s as [|d s]; [reflexivity|].
    rewrite split_colons_step.
    assert (Hc : Ascii.eqb c ":" = false).
    { apply Ascii.eqb_neq, Hs. simpl; auto. }
    rewrite Hc. simpl andb. cbv iota.
    rewrite IH.
    + by rewrite app_snoc_cons.
    + intros c' Hc'. apply Hs. simpl; auto.
Qed.

Lemma py_split_aten (b : string) :
  (forall c, In c (list_ascii_of_string b) -> c <> ":"%char) ->
  py_split ("aten::" +:+ b) = ["aten"; b].
Proof.
  intros Hb. unfold py_split.
  change (split_colons "" ("aten::" +:+ b)) with ("aten" :: split_colons "" b).
  by rewrite (split_colons_no_colon b "" Hb).
Qed.

Lemma py_split_example :
  py_split "aten::transpose" = ["aten"; "transpose"]
  /\ py_split "mylib::foo" = ["mylib"; "foo"]
  /\ py_split "aten::a::b" = ["aten"; "a"; "b"]
  /\ py_split "aten:::x" = ["aten"; ":x"].
Proof. repeat split. Qed.

(** ** Reading the two tables *)


Lemma black_listed_cases (op : PyOp) :
  op ∈ _BLACK_LISTED_OPS ->
  op = aten_packet "sym_size" \/ op = aten_packet "sym_stride" \/ op = aten_packet "sym_numel".
Proof.
  unfold _BLACK_LISTED_OPS. rewrite !elem_of_union, !elem_of_singleton. tauto.
Qed.

Lemma black_listed_not_static (op : PyOp) :
  op ∈ _BLACK_LISTED_OPS -> _NON_FUNCTIONAL_OPS_TO_FUNCTIONAL_OPS !! op = None.
Proof.
  intros H. unfold _NON_FUNCTIONAL_OPS_TO_FUNCTIONAL_OPS.
  apply lookup_singleton_None.
  destruct (black_listed_cases op H) as [-> | [-> | ->]]; intros E; discriminate E.
Qed.

(** An overload of an excluded family is a different object from the family
    and is not found in the set. *)
Lemma overload_not_black_listed (ns opname overload : string) :
  OpOverload ns opname overload ∉ _BLACK_LISTED_OPS.
Proof.
  intros H. destruct (black_listed_cases _ H) as [E | [E | E]]; discriminate E.
Qed.

Section PassFacts.
Context {Args Kwargs Meta Node : Type}.
Variable super_call_operator : PyOp -> Args -> Kwargs -> Meta -> Node.
Variable aten : OpNamespace.

Local Abbreviation run_with := (call_operator_with super_call_operator aten).
Local Abbreviation run := (call_operator super_call_operator aten).
Local Abbreviation delegate := (super_call super_call_operator).

Lemma is_view_op_true (schema : FunctionSchema) (a : Argument) (rest : list Argument) :
  arguments schema = a :: rest -> alias_info a <> None -> is_view_op schema = true.
Proof.
  intros Ha Hal. unfold is_view_op. rewrite Ha. simpl.
  by apply bool_decide_eq_true.
Qed.

Lemma is_view_op_false (schema : FunctionSchema) :
  arguments schema = [] \/
  (exists a rest, arguments schema = a :: rest /\ alias_info a = None) ->
  is_view_op schema = false.
Proof.
  unfold is_view_op. intros [-> | (a & rest & -> & Hal)]; [reflexivity|].
  simpl. apply bool_decide_eq_false. congruence.
Qed.

Lemma get_view_copy_found (schema : FunctionSchema) (packet : gmap string PyOp)
    (view_copy_op : PyOp) :
  is_view_op schema = true ->
  String.prefix "aten::" (name schema) = true ->
  aten !! (view_op_name_of schema +:+ "_copy") = Some packet ->
  packet !! view_op_overload_of schema = Some view_copy_op ->
  get_view_copy_of_view_op aten schema = Some view_copy_op.
Proof.
  unfold get_view_copy_of_view_op, view_op_name_of, view_op_overload_of.
  intros -> -> Hp Ho. simpl. by rewrite Hp, Ho.
Qed.

Lemma get_view_copy_not_view (schema : FunctionSchema) :
  is_view_op schema = false \/ String.prefix "aten::" (name schema) = false ->
  get_view_copy_of_view_op aten schema = None.
Proof.
  unfold get_view_copy_of_view_op. intros [-> | ->]; [reflexivity|].
  by destruct (negb (is_view_op schema)).
Qed.

(** Outside the two tables the operator object reaches
    [get_view_copy_of_view_op], where reading [arguments] off it raises:
    nothing is delegated. *)
Lemma outside_tables_raises (table : gmap PyOp PyOp) (black : gset PyOp)
    (op : PyOp) (args : Args) (kwargs : Kwargs) (meta : Meta) :
  table !! op = None ->
  op ∉ black ->
  run_with table black op args kwargs meta = ([], AttributeError "arguments").
Proof.
  intros Ht Hb. unfold call_operator_with. rewrite Ht.
  by rewrite bool_decide_eq_false_2 by exact Hb.
Qed.

(** C1: the code does not do what the claim says.  For an operator outside
    the two tables, even when its schema is one for which
    [get_view_copy_of_view_op] answers with a view-copy operator,
    [call_operator] raises [AttributeError] on reading [arguments] off the
    operator object and delegates nothing; handed the schema instead, the
    same function returns that view-copy operator. *)
Theorem C1_view_op_raises_AttributeError
    (op : PyOp) (args : Args) (kwargs : Kwargs) (meta : Meta)
    (schema : FunctionSchema) (view_copy_op : PyOp) :
  _NON_FUNCTIONAL_OPS_TO_FUNCTIONAL_OPS !! op = None ->
  op ∉ _BLACK_LISTED_OPS ->
  get_view_copy_of_view_op aten schema = Some view_copy_op ->
  run op args kwargs meta = ([], AttributeError "arguments")
  /\ run op args kwargs meta <> delegate view_copy_op args kwargs meta
  /\ get_view_copy_of_view_op_call aten (SchemaObject schema) = Returned (Some view_copy_op).
Proof.
  intros Ht Hb Hv. unfold call_operator.
  rewrite (outside_tables_raises _ _ op args kwargs meta Ht Hb).
  repeat split; [discriminate|].
  unfold get_view_copy_of_view_op_call. simpl. by rewrite Hv.
Qed.



(** C6: the code does not do what the claim says.  For an operator outside
    the two tables, whatever its schema, [call_operator] does not delegate
    with the operator unchanged: it raises [AttributeError] on reading
    [arguments] off the operator object, and the host's method is not
    called. *)
Theorem C6_non_view_op_raises_AttributeError
    (op : PyOp) (args : Args) (kwargs : Kwargs) (meta : Meta) :
  _NON_FUNCTIONAL_OPS_TO_FUNCTIONAL_OPS !! op = None ->
  op ∉ _BLACK_LISTED_OPS ->
  calls (run op args kwargs meta) = []
  /\ value (run op args kwargs meta) = AttributeError "arguments"
  /\ run op args kwargs meta <> delegate op args kwargs meta.
Proof.
  intros Ht Hb. unfold call_operator.
  rewrite (outside_tables_raises _ _ op args kwargs meta Ht Hb).
  repeat split. discriminate.
Qed.

(** C7: the code does not do what the claim says on every branch.  The
    host's [call_operator] is called once, with the arguments as received,
    when the operator is a key of the static table or in the exclusion set;
    on the schema branches it is called zero times and [AttributeError] is
    raised. *)
Theorem C7_delegate_calls_counted
    (op : PyOp) (args : Args) (kwargs : Kwargs) (meta : Meta) :
  (forall functional_op,
      _NON_FUNCTIONAL_OPS_TO_FUNCTIONAL_OPS !! op = Some functional_op ->
      calls (run op args kwargs meta) = [SuperCall functional_op args kwargs meta])
  /\ (op ∈ _BLACK_LISTED_OPS ->
      calls (run op args kwargs meta) = [SuperCall op args kwargs meta])
  /\ (_NON_FUNCTIONAL_OPS_TO_FUNCTIONAL_OPS !! op = None ->
      op ∉ _BLACK_LISTED_OPS ->
      length (calls (run op args kwargs meta)) = 0
      /\ value (run op args kwargs meta) = AttributeError "arguments").
Proof.
  unfold call_operator. split; [|split].
  - intros f H. unfold call_operator_with. by rewrite H.
  - intros H. unfold call_operator_with. rewrite (black_listed_not_static op H).
    by rewrite bool_decide_eq_true_2.
  - intros Ht Hb. by rewrite (outside_tables_raises _ _ op args kwargs meta Ht Hb).
Qed.

End PassFacts.

Import Fixtures.

Lemma C1_witness :
  call_operator echo_host transpose_aten (aten_op "transpose" "int") tt tt tt
  = ([], AttributeError "arguments")
  /\ call_operator echo_host transpose_aten (aten_op "transpose" "int") tt tt tt
     <> super_call echo_host (aten_op "transpose_copy" "int") tt tt tt
  /\ get_view_copy_of_view_op_call transpose_aten
       (SchemaObject (transpose_schema (aten_op "transpose" "int")))
     = Returned (Some (aten_op "transpose_copy" "int")).
Proof.
  apply (C1_view_op_raises_AttributeError echo_host transpose_aten
           (aten_op "transpose" "int") tt tt tt
           (transpose_schema (aten_op "transpose" "int"))
           (aten_op "transpose_copy" "int")).
  - vm_compute; reflexivity.
  - vm_compute; discriminate.
  - vm_compute; reflexivity.
Defined.



Lemma C6_witness :
  calls (call_operator echo_host transpose_aten (aten_op "add" "Tensor") tt tt tt) = []
  /\ value (call_operator echo_host transpose_aten (aten_op "add" "Tensor") tt tt tt)
     = AttributeError "arguments"
  /\ call_operator echo_host transpose_aten (aten_op "add" "Tensor") tt tt tt
     <> super_call echo_host (aten_op "add" "Tensor") tt tt tt.
Proof.
  apply (C6_non_view_op_raises_AttributeError echo_host transpose_aten).
  - vm_compute; reflexivity.
  - vm_compute; discriminate.
Defined.

Lemma C7_witness :
  length (calls (call_operator echo_host transpose_aten (aten_op "transpose" "int")
                   tt tt tt)) = 0%nat
  /\ value (call_operator echo_host transpose_aten (aten_op "transpose" "int") tt tt tt)
     = AttributeError "arguments".
Proof.
  apply (proj2 (proj2 (C7_delegate_calls_counted echo_host transpose_aten
                         (aten_op "transpose" "int") tt tt tt))).
  - vm_compute; reflexivity.
  - vm_compute; discriminate.
Defined.

End ReplaceViewOpsFacts.

(** * Properties of the cross-reference mode *)
Module FakeUtilsFacts.
Import FakeUtils.

(** ** The logging monad *)

Lemma calls_bind {A B} (m : M A) (k : A -> M B) :
  calls (bind m k) =
  calls m ++ match value m with Returns a => calls (k a) | Raises _ => [] end.
Proof.
  destruct m as [l [a|e]]; simpl; [|by rewrite app_nil_r].
  by destruct (k a).
Qed.

Lemma value_bind {A B} (m : M A) (k : A -> M B) :
  value (bind m k) =
  match value m with Returns a => value (k a) | Raises e => Raises e end.
Proof. destruct m as [l [a|e]]; simpl; [|reflexivity]. by destruct (k a). Qed.

Lemma bind_Returns {A B} (l : list Event) (a : A) (k : A -> M B) :
  bind (l, Returns a) k = (l ++ calls (k a), value (k a)).
Proof. simpl. by destruct (k a). Qed.

Lemma bind_Raises {A B} (l : list Event) (e : Exn) (k : A -> M B) :
  bind (l, Raises e) k = (l, Raises e).
Proof. reflexivity. Qed.

Lemma traced_eta {E A} (m : Traced E A) : m = (calls m, value m).
Proof. by destruct m. Qed.

(** ** Trees *)

Lemma PyTree_forall_ind (P : PyTree -> Prop) :
  (forall l, P (LeafNode l)) ->
  (forall c children, Forall P children -> P (ContainerNode c children)) ->
  forall t, P t.
Proof.
  intros Hleaf Hnode.
  fix IH 1. intros [l|c children]; [apply Hleaf|].
  apply Hnode. induction children as [|t ts IHts]; constructor; [apply IH | exact IHts].
Qed.

(** Rebuilding a tree from its own leaves gives the tree back, so [tree_map]
    with a function that changes no leaf changes nothing. *)
Lemma tree_unflatten_flatten (t : PyTree) (rest : list Leaf) :
  tree_unflatten (tree_flatten t ++ rest) t = (t, rest).
Proof.
  revert rest. induction t as [l|c children IH] using PyTree_forall_ind; intros rest.
  - reflexivity.
  - cbn [tree_flatten tree_unflatten].
    match goal with
    | |- (let '(_, _) := ?unflatten_all (?flatten_all children ++ rest) children in _) = _ =>
        assert (E : unflatten_all (flatten_all children ++ rest) children = (children, rest))
    end.
    { clear c. revert rest. induction IH as [|t ts Ht _ IHts]; intros rest.
      - reflexivity.
      - rewrite <- app_assoc, Ht, IHts. reflexivity. }
    by rewrite E.
Qed.

Lemma tree_map_ret (t : PyTree) :
  tree_map ret t = ([], Returns t).
Proof.
  unfold tree_map.
  assert (E : forall xs : list Leaf, mapM ret xs = ([], Returns xs)).
  { induction xs as [|x xs IHxs]; [reflexivity|]. cbn [mapM]. by rewrite IHxs. }
  rewrite E. simpl.
  by rewrite <- (app_nil_r (tree_flatten t)), tree_unflatten_flatten.
Qed.

(** ** The metadata comparison *)

Lemma compare_tensor_meta_None (a b : Tensor) :
  compare_tensor_meta a b true = None <->
  shape a = shape b /\ dtype a = dtype b /\ stride a = stride b.
Proof.
  unfold compare_tensor_meta.
  repeat case_bool_decide; simpl; split; intros Hyp; try discriminate;
    try (destruct Hyp as (? & ? & ?); contradiction).
  - auto.
  - reflexivity.
Qed.

Lemma compare_tensor_meta_differs (a b : Tensor) :
  meta_differs a b -> exists e, compare_tensor_meta a b true = Some e.
Proof.
  intros Hd.
  destruct (compare_tensor_meta a b true) as [e|] eqn:E; [eauto|].
  apply compare_tensor_meta_None in E. destruct E as (? & ? & ?).
  destruct Hd as [? | [? | ?]]; contradiction.
Qed.

Lemma meta_differs_dec (a b : Tensor) :
  meta_differs a b \/ (shape a = shape b /\ dtype a = dtype b /\ stride a = stride b).
Proof.
  unfold meta_differs.
  destruct (decide (shape a = shape b)); [|auto].
  destruct (decide (dtype a = dtype b)); [|auto].
  destruct (decide (stride a = stride b)); auto.
Qed.

Section Facts.
Variable ignore_op_fn : PyOp -> bool.
Variable tags : PyOp -> list Tag.
Variable str : PyOp -> string.
Variable from_tensor : Tensor -> Outcome Tensor.
Variable func_fake : PyOp -> PyTree -> Outcome PyTree.
Variable func_real : PyOp -> PyTree -> Outcome PyTree.

Local Abbreviation dispatch :=
  (__torch_dispatch__ ignore_op_fn tags str from_tensor func_fake func_real).
Local Abbreviation shadow := (shadow_phase ignore_op_fn tags from_tensor func_fake).
Local Abbreviation block := (fake_block from_tensor func_fake).
Local Abbreviation loop := (compare_leaves str).
Local Abbreviation lift_leaf := (on_tensor (fake_mode_from_tensor from_tensor)).

(** ** The comparison loop *)

Lemma loop_cons_agrees (func : PyOp) (p : Leaf * Leaf) (rest : list (Leaf * Leaf)) :
  pair_agrees p ->
  loop func (p :: rest) =
  (compare_events [p] ++ calls (loop func rest), value (loop func rest)).
Proof.
  destruct p as [[a|u] [b|v]]; simpl; try tauto; intros H.
  - apply compare_tensor_meta_None in H. rewrite H. simpl.
    by destruct (compare_leaves str func rest).
  - apply traced_eta.
Qed.

Lemma loop_app_agrees (func : PyOp) (pre rest : list (Leaf * Leaf)) :
  Forall pair_agrees pre ->
  loop func (pre ++ rest) =
  (compare_events pre ++ calls (loop func rest), value (loop func rest)).
Proof.
  induction 1 as [|p pre Hp _ IH].
  - apply traced_eta.
  - rewrite <- app_comm_cons, (loop_cons_agrees _ _ _ Hp), IH. simpl.
    unfold compare_events. simpl. by rewrite <- !app_assoc.
Qed.

Lemma loop_all_agree (func : PyOp) (pairs : list (Leaf * Leaf)) :
  Forall pair_agrees pairs ->
  loop func pairs = (compare_events pairs, Returns tt).
Proof.
  intros H. rewrite <- (app_nil_r pairs) at 1.
  rewrite (loop_app_agrees _ _ _ H). simpl. by rewrite app_nil_r.
Qed.

Lemma loop_head_differs (func : PyOp) (a b : Tensor) (e : Exn)
    (rest : list (Leaf * Leaf)) :
  compare_tensor_meta a b true = Some e ->
  loop func ((TensorLeaf a, TensorLeaf b) :: rest) =
  ([EvCompare a b],
   Raises (RuntimeError ("Mismatch on " +:+ str func +:+ ": " +:+ repr e))).
Proof. intros H. simpl. by rewrite H. Qed.

Lemma loop_head_mixed (func : PyOp) (p : Leaf * Leaf) (rest : list (Leaf * Leaf)) :
  ~ same_kind p ->
  loop func (p :: rest) = ([], Raises (AssertionError "")).
Proof.
  destruct p as [[a|u] [b|v]]; unfold same_kind; simpl; intros H;
    solve [reflexivity | by destruct H].
Qed.

Lemma loop_only_compares (func : PyOp) (pairs : list (Leaf * Leaf)) :
  Forall (fun ev => exists a b, ev = EvCompare a b) (calls (loop func pairs)).
Proof.
  induction pairs as [|[[a|u] [b|v]] rest IH]; simpl; try by constructor.
  - destruct (compare_tensor_meta a b true); simpl.
    + repeat constructor; eauto.
    + destruct (compare_leaves str func rest) as [l o]; simpl in *.
      constructor; eauto.
  - exact IH.
Qed.

(** Up to the first pair that fails a check, a list of pairs is a prefix of
    agreeing pairs. *)
Lemma first_failure (pairs : list (Leaf * Leaf)) :
  Forall pair_agrees pairs \/
  exists pre p post, pairs = pre ++ p :: post /\ Forall pair_agrees pre /\ ~ pair_agrees p.
Proof.
  induction pairs as [|p pairs IH]; [left; constructor|].
  assert (Hdec : pair_agrees p \/ ~ pair_agrees p).
  { destruct p as [[a|u] [b|v]]; simpl; try tauto.
    destruct (meta_differs_dec a b) as [[?|[?|?]]|?]; tauto. }
  destruct Hdec as [Hp|Hp].
  - destruct IH as [IH|(pre & q & post & -> & Hpre & Hq)].
    + left; by constructor.
    + right. exists (p :: pre), q, post. repeat split; [by constructor | done].
  - right. exists [], p, pairs. repeat split; [constructor | done].
Qed.

(** ** The shadow phase *)

Lemma shadowed_false (func : PyOp) :
  func ∈ [ aten_op "lift_fresh" "default"; aten_op "lift_fresh_copy" "default";
           aten_op "set_" "source_Storage_storage_offset" ]
  \/ ignore_op_fn func = true
  \/ dynamic_output_shape ∈ tags func
  \/ inplace_view ∈ tags func
  \/ data_dependent_output ∈ tags func ->
  shadowed ignore_op_fn tags func = false.
Proof.
  unfold shadowed. intros H.
  repeat case_bool_decide; destruct (ignore_op_fn func); simpl; try reflexivity.
  destruct H as [? | [? | [? | [? | ?]]]]; done.
Qed.

Lemma shadow_skipped (func : PyOp) (args : list PyTree) (kw : list (string * PyTree)) :
  shadowed ignore_op_fn tags func = false ->
  shadow func args kw = ([], Returns None_).
Proof. unfold shadow_phase. by intros ->. Qed.

Lemma shadow_unsupported (func : PyOp) (args : list PyTree) (kw : list (string * PyTree))
    (l : list Event) (msg : string) :
  shadowed ignore_op_fn tags func = true ->
  block func args kw = (l, Raises (UnsupportedFakeTensorException msg)) ->
  shadow func args kw = (l, Returns None_).
Proof.
  unfold shadow_phase. intros -> ->. simpl. by rewrite app_nil_r.
Qed.

Lemma lift_leaf_only_lifts (x : Leaf) :
  Forall (fun ev => is_from_tensor ev = true) (calls (lift_leaf x)).
Proof.
  destruct x as [t|v]; simpl; [|constructor].
  destruct (is_fake t); simpl; [constructor|].
  destruct (from_tensor t); simpl; repeat constructor.
Qed.

Lemma mapM_only_lifts (xs : list Leaf) :
  Forall (fun ev => is_from_tensor ev = true) (calls (mapM lift_leaf xs)).
Proof.
  induction xs as [|x xs IH]; [constructor|].
  cbn [mapM]. rewrite calls_bind. apply Forall_app. split.
  - apply lift_leaf_only_lifts.
  - destruct (value (lift_leaf x)); [|constructor].
    rewrite calls_bind. apply Forall_app. split; [exact IH|].
    destruct (value (mapM lift_leaf xs)); constructor.
Qed.

Lemma block_never_calls_for_real (func : PyOp) (args : list PyTree)
    (kw : list (string * PyTree)) :
  Forall (fun ev => is_real_call ev = false) (calls (block func args kw)).
Proof.
  unfold fake_block, tree_map. rewrite !calls_bind.
  repeat (apply Forall_app; split).
  - eapply Forall_impl; [apply mapM_only_lifts|]. by intros [] ?.
  - destruct (value (mapM _ _)); constructor.
  - rewrite value_bind. destruct (value (mapM _ _)); simpl; repeat constructor.
Qed.

Lemma shadow_never_calls_for_real (func : PyOp) (args : list PyTree)
    (kw : list (string * PyTree)) :
  Forall (fun ev => is_real_call ev = false) (calls (shadow func args kw)).
Proof.
  unfold shadow_phase. destruct (shadowed _ _ _); [|constructor].
  pose proof (block_never_calls_for_real func args kw) as H.
  destruct (fake_block _ _ _ _ _) as [l [v|[]]]; simpl in *; try exact H.
  by rewrite app_nil_r.
Qed.

(** Lifting stops with the assertion at a leaf that is already fake, when
    [from_tensor] answered for the real tensors before it. *)
Lemma mapM_stops_at_fake (pre post : list Leaf) (t : Tensor) :
  is_fake t = true ->
  (forall x, TensorLeaf x ∈ pre -> is_fake x = false ->
             exists y, from_tensor x = Returns y) ->
  value (mapM lift_leaf (pre ++ TensorLeaf t :: post))
  = Raises (AssertionError "FakeTensor -> Real Cross Ref NYI").
Proof.
  intros Ht. induction pre as [|x pre IH]; intros Hpre.
  - simpl. by rewrite Ht.
  - rewrite <- app_comm_cons. cbn [mapM]. rewrite value_bind.
    destruct x as [u|v]; simpl.
    + destruct (is_fake u) eqn:Hu; [reflexivity|].
      destruct (Hpre u) as [y Hy]; [by left | done |].
      rewrite Hy. simpl. rewrite value_bind.
      rewrite IH; [reflexivity|].
      intros z Hz. apply Hpre. by right.
    + rewrite value_bind. rewrite IH; [reflexivity|].
      intros z Hz. apply Hpre. by right.
Qed.

(** ** The dispatch as a whole *)

Lemma dispatch_shadow_raises (func : PyOp) (types : list string) (args : list PyTree)
    (kwargs : option (list (string * PyTree))) (l : list Event) (e : Exn) :
  shadow func args (kwargs_or_empty kwargs) = (l, Raises e) ->
  dispatch func types args kwargs = (l, Raises e).
Proof. unfold __torch_dispatch__. by intros ->. Qed.

Lemma dispatch_real_raises (func : PyOp) (types : list string) (args : list PyTree)
    (kwargs : option (list (string * PyTree))) (l : list Event) (fake_r : PyTree)
    (e : Exn) :
  shadow func args (kwargs_or_empty kwargs) = (l, Returns fake_r) ->
  func_real func (pack args (kwargs_or_empty kwargs)) = Raises e ->
  dispatch func types args kwargs =
  (l ++ [EvRealCall func (pack args (kwargs_or_empty kwargs))], Raises e).
Proof. unfold __torch_dispatch__, call. by intros -> ->. Qed.

Lemma dispatch_real_returns (func : PyOp) (types : list string) (args : list PyTree)
    (kwargs : option (list (string * PyTree))) (l : list Event) (fake_r r : PyTree) :
  shadow func args (kwargs_or_empty kwargs) = (l, Returns fake_r) ->
  func_real func (pack args (kwargs_or_empty kwargs)) = Returns r ->
  let checks :=
    if is_not_None fake_r
    then loop func (combine (tree_flatten r) (tree_flatten fake_r))
    else ret tt in
  dispatch func types args kwargs =
  (l ++ EvRealCall func (pack args (kwargs_or_empty kwargs)) :: calls checks,
   match value checks with Returns _ => Returns r | Raises e => Raises e end).
Proof.
  intros Hs Hr checks. unfold __torch_dispatch__, call. rewrite Hs, Hr.
  rewrite bind_Returns, bind_Returns. fold checks.
  rewrite calls_bind, value_bind.
  destruct (value checks); simpl; by rewrite ?app_nil_r.
Qed.

Lemma filter_none (f : Event -> bool) (l : list Event) :
  Forall (fun ev => f ev = false) l -> List.filter f l = [].
Proof. induction 1 as [|ev l Hev _ IH]; simpl; [reflexivity | by rewrite Hev]. Qed.

Lemma loop_never_calls_for_real (func : PyOp) (pairs : list (Leaf * Leaf)) :
  Forall (fun ev => is_real_call ev = false) (calls (loop func pairs)).
Proof.
  eapply Forall_impl; [apply loop_only_compares|].
  by intros ev (a & b & ->).
Qed.

Lemma loop_failure (func : PyOp) (p : Leaf * Leaf) (post : list (Leaf * Leaf)) :
  ~ pair_agrees p -> exists e, value (loop func (p :: post)) = Raises e.
Proof.
  destruct p as [[a|u] [b|v]]; intros Hp.
  - destruct (compare_tensor_meta a b true) as [e|] eqn:E.
    + rewrite (loop_head_differs _ _ _ _ _ E). eauto.
    + apply compare_tensor_meta_None in E. by destruct Hp.
  - rewrite loop_head_mixed; [eauto | by unfold same_kind].
  - rewrite loop_head_mixed; [eauto | by unfold same_kind].
  - by destruct Hp.
Qed.

Lemma loop_differing_raises (func : PyOp) (pre post : list (Leaf * Leaf))
    (a b : Tensor) :
  meta_differs a b ->
  exists e, value (loop func (pre ++ (TensorLeaf a, TensorLeaf b) :: post)) = Raises e.
Proof.
  intros Hd.
  destruct (first_failure (pre ++ (TensorLeaf a, TensorLeaf b) :: post))
    as [Hall | (pre' & p & post' & -> & Hpre' & Hp)].
  - apply Forall_app in Hall as [_ Hall]. apply Forall_cons in Hall as [(? & ? & ?) _].
    destruct Hd as [? | [? | ?]]; contradiction.
  - rewrite (loop_app_agrees _ _ _ Hpre'). simpl. by apply loop_failure.
Qed.

Lemma loop_first_differing (func : PyOp) (pre post : list (Leaf * Leaf))
    (a b : Tensor) :
  meta_differs a b ->
  Forall same_kind pre ->
  exists pre' a' b' e,
    length pre' <= length pre
    /\ Forall pair_agrees pre'
    /\ compare_tensor_meta a' b' true = Some e
    /\ loop func (pre ++ (TensorLeaf a, TensorLeaf b) :: post) =
       (compare_events pre' ++ [EvCompare a' b'],
        Raises (RuntimeError ("Mismatch on " +:+ str func +:+ ": " +:+ repr e))).
Proof.
  intros Hd. induction 1 as [|p pre Hp _ IH].
  - destruct (compare_tensor_meta_differs _ _ Hd) as [e He].
    exists [], a, b, e. repeat split; [done | constructor | done |].
    by apply loop_head_differs.
  - destruct IH as (pre' & a' & b' & e & Hlen & Hpre' & He & Hl).
    destruct p as [[u|u] [v|v]]; try discriminate Hp.
    + destruct (meta_differs_dec u v) as [Huv|Huv].
      * destruct (compare_tensor_meta_differs _ _ Huv) as [e' He'].
        exists [], u, v, e'. repeat split; [simpl; lia | constructor | done |].
        by apply loop_head_differs.
      * exists ((TensorLeaf u, TensorLeaf v) :: pre'), a', b', e.
        repeat split; [simpl; lia | by constructor | done |].
        rewrite <- app_comm_cons, loop_cons_agrees by exact Huv.
        by rewrite Hl.
    + exists ((OpaqueLeaf u, OpaqueLeaf v) :: pre'), a', b', e.
      repeat split; [simpl; lia | by constructor | done |].
      rewrite <- app_comm_cons, loop_cons_agrees by exact I.
      by rewrite Hl.
Qed.

Lemma combine_take {A B} (xs : list A) (ys : list B) :
  combine xs ys =
  combine (take (min (length xs) (length ys)) xs) (take (min (length xs) (length ys)) ys).
Proof.
  revert ys; induction xs as [|x xs IH]; intros [|y ys]; simpl; try reflexivity.
  by rewrite <- IH.
Qed.

(** ** The claims *)

Lemma pack_original (args : list PyTree) (kwargs : option (list (string * PyTree))) :
  pack args (kwargs_or_empty kwargs) =
  ContainerNode PyTuple
    [ContainerNode PyTuple args;
     ContainerNode (PyDict (List.map fst match kwargs with Some kw => kw | None => [] end))
       (List.map snd match kwargs with Some kw => kw | None => [] end)].
Proof. by destruct kwargs as [[|kv kvs]|]. Qed.

(** C3: when [func] is one of the three fixed operators, or [ignore_op_fn]
    holds of it, or its tags include dynamic-output-shape, in-place-view or
    data-dependent-output, the only call made is the real one (no tensor is
    lifted, [func] is not run abstractly), it is made on the positional
    arguments and the keyword arguments as they were received (no keyword
    arguments when [None] was given), and its outcome is the outcome of the
    dispatch. *)
Theorem C3_skipped_op_runs_only_for_real
    (func : PyOp) (types : list string) (args : list PyTree)
    (kwargs : option (list (string * PyTree))) :
  func ∈ [ aten_op "lift_fresh" "default"; aten_op "lift_fresh_copy" "default";
           aten_op "set_" "source_Storage_storage_offset" ]
  \/ ignore_op_fn func = true
  \/ dynamic_output_shape ∈ tags func
  \/ inplace_view ∈ tags func
  \/ data_dependent_output ∈ tags func ->
  let received :=
    match kwargs with
    | Some kw => kw
    | None => []
    end in
  let original :=
    ContainerNode PyTuple
      [ContainerNode PyTuple args;
       ContainerNode (PyDict (List.map fst received)) (List.map snd received)] in
  dispatch func types args kwargs = ([EvRealCall func original], func_real func original)
  /\ List.filter is_from_tensor (calls (dispatch func types args kwargs)) = []
  /\ List.filter is_fake_call (calls (dispatch func types args kwargs)) = [].
Proof.
  intros H received original. apply shadowed_false in H.
  pose proof (shadow_skipped func args (kwargs_or_empty kwargs) H) as Hs.
  assert (E : dispatch func types args kwargs =
              ([EvRealCall func original], func_real func original)).
  { unfold original, received. rewrite <- (pack_original args kwargs).
    destruct (func_real func (pack args (kwargs_or_empty kwargs))) as [r|e] eqn:Hr.
    - by rewrite (dispatch_real_returns _ types _ _ _ _ _ Hs Hr).
    - by rewrite (dispatch_real_raises _ types _ _ _ _ _ Hs Hr). }
  rewrite E. by repeat split.
Qed.

(** C2, as amended: when a fake result was obtained and some zipped pair of
    tensor leaves differs in shape, dtype or stride layout, the dispatch
    returns no value; if no pair before it mixes a tensor with a non-tensor,
    what is raised is the [RuntimeError] naming [func]; and if the pairs
    before it all agree, it is raised at that pair, after the comparisons of
    the earlier pairs and none of the later ones. *)
Theorem C2_mismatch_raises_naming_func
    (func : PyOp) (types : list string) (args : list PyTree)
    (kwargs : option (list (string * PyTree)))
    (l : list Event) (fake_r r : PyTree)
    (pre post : list (Leaf * Leaf)) (r_t fake_t : Tensor) :
  shadow func args (kwargs_or_empty kwargs) = (l, Returns fake_r) ->
  is_not_None fake_r = true ->
  func_real func (pack args (kwargs_or_empty kwargs)) = Returns r ->
  combine (tree_flatten r) (tree_flatten fake_r)
    = pre ++ (TensorLeaf r_t, TensorLeaf fake_t) :: post ->
  meta_differs r_t fake_t ->
  (exists e, value (dispatch func types args kwargs) = Raises e)
  /\ (Forall same_kind pre ->
      exists e, value (dispatch func types args kwargs)
                = Raises (RuntimeError ("Mismatch on " +:+ str func +:+ ": " +:+ repr e)))
  /\ (Forall pair_agrees pre ->
      exists e, compare_tensor_meta r_t fake_t true = Some e
        /\ dispatch func types args kwargs =
           (l ++ EvRealCall func (pack args (kwargs_or_empty kwargs))
              :: compare_events pre ++ [EvCompare r_t fake_t],
            Raises (RuntimeError ("Mismatch on " +:+ str func +:+ ": " +:+ repr e)))).
Proof.
  intros Hs Hn Hr Hpairs Hd.
  rewrite (dispatch_real_returns _ types _ _ _ _ _ Hs Hr), Hn, Hpairs.
  repeat split.
  - destruct (loop_differing_raises func pre post _ _ Hd) as [e He].
    exists e. simpl. by rewrite He.
  - intros Hk.
    destruct (loop_first_differing func pre post _ _ Hd Hk)
      as (pre' & a' & b' & e & _ & _ & _ & Hl).
    exists e. simpl. by rewrite Hl.
  - intros Hp. destruct (compare_tensor_meta_differs _ _ Hd) as [e He].
    exists e. split; [exact He|].
    rewrite (loop_app_agrees _ _ _ Hp), (loop_head_differs _ _ _ _ _ He).
    reflexivity.
Qed.

(** C8: a value returned by the dispatch is the value of the one real call
    of [func], made on the positional arguments and the keyword arguments as
    they were received (no keyword arguments when [None] was given); when
    the shadow phase is skipped, and when the fake block raised the
    unsupported signal, the outcome of the dispatch is the outcome of that
    real call; and when the real call returned and the zipped leaves all
    agree, its value is returned. *)
Theorem C8_returns_the_real_result
    (func : PyOp) (types : list string) (args : list PyTree)
    (kwargs : option (list (string * PyTree))) :
  let received :=
    match kwargs with
    | Some kw => kw
    | None => []
    end in
  let original :=
    ContainerNode PyTuple
      [ContainerNode PyTuple args;
       ContainerNode (PyDict (List.map fst received)) (List.map snd received)] in
  (forall v, value (dispatch func types args kwargs) = Returns v ->
     func_real func original = Returns v
     /\ List.filter is_real_call (calls (dispatch func types args kwargs))
        = [EvRealCall func original])
  /\ (shadowed ignore_op_fn tags func = false ->
      value (dispatch func types args kwargs) = func_real func original)
  /\ (forall l msg,
      shadowed ignore_op_fn tags func = true ->
      block func args received = (l, Raises (UnsupportedFakeTensorException msg)) ->
      dispatch func types args kwargs
      = (l ++ [EvRealCall func original], func_real func original))
  /\ (forall l fake_r r,
      shadow func args received = (l, Returns fake_r) ->
      func_real func original = Returns r ->
      Forall pair_agrees (combine (tree_flatten r) (tree_flatten fake_r)) ->
      value (dispatch func types args kwargs) = Returns r).
Proof.
  intros received original.
  assert (Hk : kwargs_or_empty kwargs = received).
  { by destruct kwargs as [[|kv kvs]|]. }
  assert (Hp : pack args (kwargs_or_empty kwargs) = original).
  { apply pack_original. }
  clearbody received original. subst received original.
  split; [|split; [|split]].
  - intros v Hv.
    pose proof (shadow_never_calls_for_real func args (kwargs_or_empty kwargs)) as Hl.
    revert Hv.
    destruct (shadow func args (kwargs_or_empty kwargs)) as [l [fake_r|e]] eqn:Hs;
      [|by rewrite (dispatch_shadow_raises _ types _ _ _ _ Hs)].
    destruct (func_real func (pack args (kwargs_or_empty kwargs))) as [r|e] eqn:Hr;
      [|by rewrite (dispatch_real_raises _ types _ _ _ _ _ Hs Hr)].
    rewrite (dispatch_real_returns _ types _ _ _ _ _ Hs Hr). simpl.
    intros Hv. split.
    + destruct (value _); [congruence | discriminate].
    + rewrite List.filter_app. simpl in Hl. rewrite (filter_none _ _ Hl). simpl.
      f_equal. apply filter_none.
      destruct (is_not_None fake_r); [apply loop_never_calls_for_real | constructor].
  - intros H.
    pose proof (shadow_skipped func args (kwargs_or_empty kwargs) H) as Hs.
    destruct (func_real func (pack args (kwargs_or_empty kwargs))) as [r|e] eqn:Hr.
    + by rewrite (dispatch_real_returns _ types _ _ _ _ _ Hs Hr).
    + by rewrite (dispatch_real_raises _ types _ _ _ _ _ Hs Hr).
  - intros l msg H Hb.
    pose proof (shadow_unsupported func args (kwargs_or_empty kwargs) l msg H Hb) as Hs.
    destruct (func_real func (pack args (kwargs_or_empty kwargs))) as [r|e] eqn:Hr.
    + by rewrite (dispatch_real_returns _ types _ _ _ _ _ Hs Hr).
    + by rewrite (dispatch_real_raises _ types _ _ _ _ _ Hs Hr).
  - intros l fake_r r Hs Hr Ha.
    rewrite (dispatch_real_returns _ types _ _ _ _ _ Hs Hr). simpl.
    destruct (is_not_None fake_r); [|reflexivity].
    by rewrite (loop_all_agree _ _ Ha).
Qed.

(** C9, as amended: when the shadow phase is not skipped, some tensor leaf
    of the arguments is already a [FakeTensor], and [from_tensor] answered
    for the real tensor leaves before it, the dispatch fails with the
    assertion of [on_tensor]; nothing but liftings has happened by then, so
    [func] has run neither abstractly nor for real. *)
Theorem C9_fake_argument_trips_assertion
    (func : PyOp) (types : list string) (args : list PyTree)
    (kwargs : option (list (string * PyTree)))
    (pre post : list Leaf) (t : Tensor) :
  shadowed ignore_op_fn tags func = true ->
  tree_flatten (pack args (kwargs_or_empty kwargs)) = pre ++ TensorLeaf t :: post ->
  is_fake t = true ->
  (forall x, TensorLeaf x ∈ pre -> is_fake x = false ->
             exists y, from_tensor x = Returns y) ->
  value (dispatch func types args kwargs)
    = Raises (AssertionError "FakeTensor -> Real Cross Ref NYI")
  /\ Forall (fun ev => is_from_tensor ev = true) (calls (dispatch func types args kwargs)).
Proof.
  intros Hsh Hfl Ht Hpre.
  pose proof (mapM_stops_at_fake pre post t Ht Hpre) as Hv.
  pose proof (mapM_only_lifts (pre ++ TensorLeaf t :: post)) as Hc.
  destruct (mapM lift_leaf (pre ++ TensorLeaf t :: post)) as [l o] eqn:Hm.
  simpl in Hv, Hc. subst o.
  assert (Hs : shadow func args (kwargs_or_empty kwargs)
               = (l, Raises (AssertionError "FakeTensor -> Real Cross Ref NYI"))).
  { unfold shadow_phase, fake_block, tree_map. by rewrite Hsh, Hfl, Hm. }
  by rewrite (dispatch_shadow_raises _ types _ _ _ _ Hs).
Qed.

(** C10: with a fake result at hand, the log and the outcome of the dispatch
    are those of the loop run on the first [n] leaves of either result, [n]
    the length of the shorter one; leaves beyond [n] take no part, and when
    those first [n] pairs agree the real result is returned whatever the two
    lengths are. *)
Theorem C10_excess_leaves_take_no_part
    (func : PyOp) (types : list string) (args : list PyTree)
    (kwargs : option (list (string * PyTree)))
    (l : list Event) (fake_r r : PyTree) :
  shadow func args (kwargs_or_empty kwargs) = (l, Returns fake_r) ->
  is_not_None fake_r = true ->
  func_real func (pack args (kwargs_or_empty kwargs)) = Returns r ->
  let n := min (length (tree_flatten r)) (length (tree_flatten fake_r)) in
  let compared := combine (take n (tree_flatten r)) (take n (tree_flatten fake_r)) in
  dispatch func types args kwargs =
    (l ++ EvRealCall func (pack args (kwargs_or_empty kwargs)) :: calls (loop func compared),
     match value (loop func compared) with
     | Returns _ => Returns r
     | Raises e => Raises e
     end)
  /\ (Forall pair_agrees compared ->
      dispatch func types args kwargs =
      (l ++ EvRealCall func (pack args (kwargs_or_empty kwargs)) :: compare_events compared,
       Returns r)).
Proof.
  intros Hs Hn Hr n compared.
  rewrite (dispatch_real_returns _ types _ _ _ _ _ Hs Hr), Hn.
  rewrite (combine_take (tree_flatten r) (tree_flatten fake_r)).
  fold n. fold compared. split; [reflexivity|].
  intros Ha. by rewrite (loop_all_agree _ _ Ha).
Qed.

End Facts.

Import Fixtures.

Lemma C3_witness :
  __torch_dispatch__ never_ignore dynamic_tags dotted lift echo echo
    nonzero_default [] two_real_args (Some alpha_kwarg)
  = ([EvRealCall nonzero_default two_args_alpha], Returns two_args_alpha)
  /\ List.filter is_from_tensor
       (calls (__torch_dispatch__ never_ignore dynamic_tags dotted lift echo echo
                 nonzero_default [] two_real_args (Some alpha_kwarg))) = []
  /\ List.filter is_fake_call
       (calls (__torch_dispatch__ never_ignore dynamic_tags dotted lift echo echo
                 nonzero_default [] two_real_args (Some alpha_kwarg))) = [].
Proof.
  apply (C3_skipped_op_runs_only_for_real never_ignore dynamic_tags dotted lift
           echo echo nonzero_default [] two_real_args (Some alpha_kwarg)).
  right; right; left. simpl. constructor.
Defined.

Lemma C2_witness :
  exists e,
    compare_tensor_meta (real_vec 2) (fake_vec 5) true = Some e
    /\ __torch_dispatch__ never_ignore no_tags dotted lift fake_vec5 real_vec2
         add_Tensor [] one_real_arg None
       = ([EvFromTensor (real_vec 2); EvFakeCall add_Tensor (pack one_fake_arg [])]
            ++ EvRealCall add_Tensor (pack one_real_arg [])
            :: compare_events [] ++ [EvCompare (real_vec 2) (fake_vec 5)],
          Raises (RuntimeError ("Mismatch on " +:+ dotted add_Tensor +:+ ": " +:+ repr e))).
Proof.
  assert (Hd : meta_differs (real_vec 2) (fake_vec 5)).
  { left. vm_compute. discriminate. }
  apply (proj2 (proj2 (C2_mismatch_raises_naming_func never_ignore no_tags dotted lift
           fake_vec5 real_vec2 add_Tensor [] one_real_arg None
           [EvFromTensor (real_vec 2); EvFakeCall add_Tensor (pack one_fake_arg [])]
           (tensor (fake_vec 5)) (tensor (real_vec 2)) [] [] (real_vec 2) (fake_vec 5)
           eq_refl eq_refl eq_refl eq_refl Hd))).
  constructor.
Defined.

(** The claim C2 as it is stated fails when an earlier pair mixes a tensor
    with a non-tensor: the second pair consists of two tensors of different
    shape, yet what is raised is the bare assertion on the first pair, which
    does not name the operator. *)
Lemma C2_counterexample :
  let d := __torch_dispatch__ never_ignore no_tags dotted lift fake_vec_then_vec5
             real_int_then_vec2 add_Tensor [] one_real_arg None in
  shadow_phase never_ignore no_tags lift fake_vec_then_vec5 add_Tensor one_real_arg []
    = ([EvFromTensor (real_vec 2); EvFakeCall add_Tensor (pack one_fake_arg [])],
       Returns (ContainerNode PyTuple [tensor (fake_vec 1); tensor (fake_vec 5)]))
  /\ combine (tree_flatten (ContainerNode PyTuple [int_ 3; tensor (real_vec 2)]))
             (tree_flatten (ContainerNode PyTuple [tensor (fake_vec 1); tensor (fake_vec 5)]))
       !! 1%nat
     = Some (TensorLeaf (real_vec 2), TensorLeaf (fake_vec 5))
  /\ shape (real_vec 2) <> shape (fake_vec 5)
  /\ d = ([EvFromTensor (real_vec 2); EvFakeCall add_Tensor (pack one_fake_arg []);
           EvRealCall add_Tensor (pack one_real_arg [])],
          Raises (AssertionError ""))
  /\ (forall msg, value d <> Raises (RuntimeError msg)).
Proof.
  repeat split; try reflexivity; vm_compute; discriminate.
Qed.

Lemma C8_witness :
  __torch_dispatch__ never_ignore no_tags dotted lift fake_unsupported echo
    add_Tensor [] two_real_args (Some alpha_kwarg)
  = ([EvFromTensor (real_vec 2); EvFromTensor (real_vec 3);
      EvFakeCall add_Tensor two_args_alpha_lifted]
       ++ [EvRealCall add_Tensor two_args_alpha],
     Returns two_args_alpha)
  /\ value (__torch_dispatch__ never_ignore no_tags dotted lift echo echo
              add_Tensor [] two_real_args (Some alpha_kwarg))
     = Returns two_args_alpha.
Proof.
  split.
  - apply (proj1 (proj2 (proj2 (C8_returns_the_real_result never_ignore no_tags dotted
             lift fake_unsupported echo add_Tensor [] two_real_args (Some alpha_kwarg))))
             _ "unsupported").
    + reflexivity.
    + reflexivity.
  - apply (proj2 (proj2 (proj2 (C8_returns_the_real_result never_ignore no_tags dotted
             lift echo echo add_Tensor [] two_real_args (Some alpha_kwarg))))
             [EvFromTensor (real_vec 2); EvFromTensor (real_vec 3);
              EvFakeCall add_Tensor two_args_alpha_lifted]
             two_args_alpha_lifted).
    + reflexivity.
    + reflexivity.
    + simpl. repeat constructor.
Defined.

Lemma C9_witness :
  value (__torch_dispatch__ never_ignore no_tags dotted lift fake_vec2 real_vec2
           add_Tensor [] real_then_fake_arg None)
    = Raises (AssertionError "FakeTensor -> Real Cross Ref NYI")
  /\ Forall (fun ev => is_from_tensor ev = true)
       (calls (__torch_dispatch__ never_ignore no_tags dotted lift fake_vec2 real_vec2
                 add_Tensor [] real_then_fake_arg None)).
Proof.
  apply (C9_fake_argument_trips_assertion never_ignore no_tags dotted lift fake_vec2
           real_vec2 add_Tensor [] real_then_fake_arg None
           [TensorLeaf (real_vec 2)] [] (fake_vec 3)).
  - reflexivity.
  - reflexivity.
  - reflexivity.
  - intros x _ _. exists {| shape := shape x; dtype := dtype x; stride := stride x;
                            is_fake := true |}. reflexivity.
Defined.

(** The claim C9 as it is stated fails when the shadow phase is skipped: for
    [lift_fresh.default] the argument is never handed to [on_tensor], and a
    fake tensor goes to the real call, whose value is returned. *)
Lemma C9_counterexample :
  tree_flatten (pack one_fake_arg []) = [TensorLeaf (fake_vec 2)]
  /\ is_fake (fake_vec 2) = true
  /\ __torch_dispatch__ never_ignore no_tags dotted lift fake_vec2 real_vec2
       lift_fresh_default [] one_fake_arg None
     = ([EvRealCall lift_fresh_default (pack one_fake_arg [])],
        Returns (tensor (real_vec 2))).
Proof. repeat split. Qed.

(** When lifting an earlier leaf raises the unsupported signal, the shadow
    phase is given up before the fake leaf is reached, and the call goes
    through. *)
Lemma unsupported_lifting_hides_fake_argument :
  __torch_dispatch__ never_ignore no_tags dotted lift_unsupported fake_vec2 real_vec2
    add_Tensor [] real_then_fake_arg None
  = ([EvFromTensor (real_vec 2); EvRealCall add_Tensor (pack real_then_fake_arg [])],
     Returns (tensor (real_vec 2))).
Proof. reflexivity. Qed.

Lemma C10_witness :
  __torch_dispatch__ never_ignore no_tags dotted lift fake_vec2 real_vec2_then_int
    add_Tensor [] one_real_arg None
  = ([EvFromTensor (real_vec 2); EvFakeCall add_Tensor (pack one_fake_arg [])]
       ++ EvRealCall add_Tensor (pack one_real_arg [])
       :: compare_events [(TensorLeaf (real_vec 2), TensorLeaf (fake_vec 2))],
     Returns (ContainerNode PyTuple [tensor (real_vec 2); int_ 7])).
Proof.
  apply (proj2 (C10_excess_leaves_take_no_part never_ignore no_tags dotted lift fake_vec2
           real_vec2_then_int add_Tensor [] one_real_arg None
           [EvFromTensor (real_vec 2); EvFakeCall add_Tensor (pack one_fake_arg [])]
           (tensor (fake_vec 2)) (ContainerNode PyTuple [tensor (real_vec 2); int_ 7])
           eq_refl eq_refl eq_refl)).
  simpl. repeat constructor.
Defined.

End FakeUtilsFacts.

(** * Further properties of the rewriting pass *)
Module ReplaceViewOpsExtra.
Import ReplaceViewOps.

(** A piece without a colon that is followed by two colons is cut off as it
    is. *)
Lemma split_colons_segment (b rest acc : string) :
  (forall c, In c (list_ascii_of_string b) -> c <> ":"%char) ->
  split_colons acc (b +:+ "::" +:+ rest) = (acc +:+ b) :: split_colons "" rest.
Proof.
  revert acc; induction b as [|c b IH]; intros acc Hb.
  - change ("" +:+ "::" +:+ rest) with (String ":" (String ":" rest)).
    rewrite ReplaceViewOpsFacts.split_colons_step. simpl.
    by rewrite ReplaceViewOpsFacts.app_empty_r.
  - assert (Hc : Ascii.eqb c ":" = false).
    { apply Ascii.eqb_neq, Hb. simpl; auto. }
    assert (Hb' : forall c', In c' (list_ascii_of_string b) -> c' <> ":"%char).
    { intros c' Hc'. apply Hb. simpl; auto. }
    destruct b as [|d b].
    + change (String c "" +:+ "::" +:+ rest) with (String c (String ":" (String ":" rest))).
      rewrite ReplaceViewOpsFacts.split_colons_step, Hc. simpl andb. cbv iota.
      rewrite ReplaceViewOpsFacts.split_colons_step. simpl.
      reflexivity.
    + change (String c (String d b) +:+ "::" +:+ rest)
        with (String c (String d (b +:+ "::" +:+ rest))).
      rewrite ReplaceViewOpsFacts.split_colons_step, Hc. simpl andb. cbv iota.
      change (String d (b +:+ "::" +:+ rest)) with (String d b +:+ "::" +:+ rest).
      rewrite IH by exact Hb'.
      by rewrite ReplaceViewOpsFacts.app_snoc_cons.
Qed.

Lemma prefix_app (p t : string) : String.prefix p (p +:+ t) = true.
Proof.
  induction p as [|a p IH]; [by destruct t|].
  change (String a p +:+ t) with (String a (p +:+ t)).
  cbn [String.prefix]. by destruct (Ascii.ascii_dec a a).
Qed.

Lemma view_op_overload_of_nonempty (schema : FunctionSchema) :
  view_op_overload_of schema <> "".
Proof.
  unfold view_op_overload_of. case_bool_decide; [assumption | discriminate].
Qed.

Lemma get_view_copy_unfold (aten : OpNamespace) (schema : FunctionSchema) :
  get_view_copy_of_view_op aten schema =
  if is_view_op schema && String.prefix "aten::" (name schema)
  then match aten !! (view_op_name_of schema +:+ "_copy") with
       | Some packet => packet !! view_op_overload_of schema
       | None => None
       end
  else None.
Proof.
  unfold get_view_copy_of_view_op, view_op_name_of, view_op_overload_of.
  destruct (is_view_op schema); simpl; [|reflexivity].
  destruct (String.prefix "aten::" (name schema)); [|reflexivity].
  destruct (aten !! _) as [packet|]; [|reflexivity].
  by destruct (packet !! _).
Qed.

Lemma is_view_op_spec (schema : FunctionSchema) :
  is_view_op schema = true <->
  exists a rest, arguments schema = a :: rest /\ alias_info a <> None.
Proof.
  unfold is_view_op. destruct (arguments schema) as [|a rest]; simpl.
  - split; [discriminate | intros (a & rest & H & _); discriminate H].
  - rewrite bool_decide_eq_true. split.
    + intros H. by exists a, rest.
    + intros (a' & rest' & H & Ha). by injection H as -> ->.
Qed.

(** X1: [get_view_copy_of_view_op] answers with an operator exactly when the
    schema has a first argument with alias information, its name starts
    with "aten::", the namespace has the packet named after the operator
    with "_copy" appended, and that packet has the overload looked for; the
    answer is then that overload. *)
Theorem X1_view_copy_found_iff (aten : OpNamespace) (schema : FunctionSchema) (v : PyOp) :
  get_view_copy_of_view_op aten schema = Some v <->
  (exists a rest, arguments schema = a :: rest /\ alias_info a <> None)
  /\ String.prefix "aten::" (name schema) = true
  /\ exists packet, aten !! (view_op_name_of schema +:+ "_copy") = Some packet
                    /\ packet !! view_op_overload_of schema = Some v.
Proof.
  rewrite get_view_copy_unfold, <- is_view_op_spec.
  destruct (is_view_op schema); simpl.
  2: { split; [discriminate | intros [H _]; discriminate H]. }
  destruct (String.prefix "aten::" (name schema)).
  2: { split; [discriminate | intros (_ & H & _); discriminate H]. }
  destruct (aten !! _) as [packet|].
  - split.
    + intros H. repeat split. by exists packet.
    + intros (_ & _ & packet' & H & Hv). by injection H as ->.
  - split; [discriminate | intros (_ & _ & packet' & H & _); discriminate H].
Qed.

(** X5: after the test [startswith("aten::")] the subscript [1] into the
    split name is in range, and [view_op_name] is the piece found there. *)
Theorem X5_split_subscript_in_range (schema : FunctionSchema) :
  String.prefix "aten::" (name schema) = true ->
  exists piece, py_split (name schema) !! 1%nat = Some piece
                /\ view_op_name_of schema = piece.
Proof.
  intros H.
  destruct (ReplaceViewOpsFacts.split_aten_prefix _ H) as (x & rest & E).
  exists x. unfold view_op_name_of. by rewrite E.
Qed.

(** X6: when the schema name is "aten::" followed by a piece without colons,
    alone or followed by "::" and more, [view_op_name] is that piece, and a
    view operator resolves to what the namespace holds under the piece with
    "_copy" appended. *)
Theorem X6_base_name_is_first_piece_after_namespace
    (aten : OpNamespace) (schema : FunctionSchema) (base : string) :
  (forall c, In c (list_ascii_of_string base) -> c <> ":"%char) ->
  name schema = "aten::" +:+ base
  \/ (exists more, name schema = "aten::" +:+ base +:+ "::" +:+ more) ->
  view_op_name_of schema = base
  /\ (is_view_op schema = true ->
      get_view_copy_of_view_op aten schema =
      match aten !! (base +:+ "_copy") with
      | Some packet => packet !! view_op_overload_of schema
      | None => None
      end).
Proof.
  intros Hb Hn.
  assert (Hname : view_op_name_of schema = base).
  { unfold view_op_name_of. destruct Hn as [-> | [more ->]].
    - by rewrite (ReplaceViewOpsFacts.py_split_aten base Hb).
    - unfold py_split.
      change (split_colons "" ("aten::" +:+ base +:+ "::" +:+ more))
        with ("aten" :: split_colons "" (base +:+ "::" +:+ more)).
      by rewrite (split_colons_segment base more "" Hb). }
  split; [exact Hname|].
  intros Hv. rewrite get_view_copy_unfold, Hv, Hname.
  assert (Hp : String.prefix "aten::" (name schema) = true).
  { destruct Hn as [-> | [more ->]]; apply prefix_app. }
  by rewrite Hp.
Qed.

Section PassExtra.
Context {Args Kwargs Meta Node : Type}.
Variable super_call_operator : PyOp -> Args -> Kwargs -> Meta -> Node.
Variable aten : OpNamespace.

Local Abbreviation run := (call_operator super_call_operator aten).

(** X4: no [OpOverload] is found in the exclusion set, which holds packets:
    for an overload the pass behaves as if the set were empty. *)
Theorem X4_overloads_are_never_excluded
    (ns opname overload : string) (args : Args) (kwargs : Kwargs) (meta : Meta) :
  (OpOverload ns opname overload ∉ _BLACK_LISTED_OPS)
  /\ run (OpOverload ns opname overload) args kwargs meta
     = call_operator_with super_call_operator aten
         _NON_FUNCTIONAL_OPS_TO_FUNCTIONAL_OPS ∅
         (OpOverload ns opname overload) args kwargs meta.
Proof.
  pose proof (ReplaceViewOpsFacts.overload_not_black_listed ns opname overload) as H.
  split; [exact H|].
  unfold call_operator, call_operator_with.
  destruct (_ !! _); [reflexivity|].
  rewrite bool_decide_eq_false_2 by exact H.
  by rewrite bool_decide_eq_false_2 by apply not_elem_of_empty.
Qed.

End PassExtra.

Import Fixtures.

Lemma X5_witness :
  exists piece, py_split (name (nested_schema (aten_op "transpose" "int"))) !! 1%nat
                = Some piece
                /\ view_op_name_of (nested_schema (aten_op "transpose" "int")) = piece.
Proof.
  apply (X5_split_subscript_in_range (nested_schema (aten_op "transpose" "int"))).
  reflexivity.
Defined.

Lemma X6_witness :
  view_op_name_of (nested_schema (aten_op "transpose" "int")) = "transpose"
  /\ (is_view_op (nested_schema (aten_op "transpose" "int")) = true ->
      get_view_copy_of_view_op transpose_aten (nested_schema (aten_op "transpose" "int")) =
      match transpose_aten !! ("transpose" +:+ "_copy") with
      | Some packet =>
          packet !! view_op_overload_of (nested_schema (aten_op "transpose" "int"))
      | None => None
      end).
Proof.
  apply (X6_base_name_is_first_piece_after_namespace transpose_aten
           (nested_schema (aten_op "transpose" "int")) "transpose").
  - intros c Hc. simpl in Hc.
    repeat (destruct Hc as [<- | Hc]; [discriminate|]). destruct Hc.
  - right. exists "extra". reflexivity.
Defined.

End ReplaceViewOpsExtra.

(** * Further properties of the cross-reference mode *)
Module FakeUtilsExtra.
Import FakeUtils.

(** ** Trees *)

Lemma tree_unflatten_map (f : Leaf -> Leaf) (t : PyTree) (rest : list Leaf) :
  tree_unflatten (List.map f (tree_flatten t) ++ rest) t = (map_leaves f t, rest).
Proof.
  revert rest.
  induction t as [l|c children IH] using FakeUtilsFacts.PyTree_forall_ind; intros rest.
  - reflexivity.
  - cbn [tree_flatten tree_unflatten map_leaves].
    match goal with
    | |- (let '(_, _) := ?unflatten_all (List.map f (?flatten_all children) ++ rest) children
          in _) = _ =>
        assert (E : unflatten_all (List.map f (flatten_all children) ++ rest) children
                    = (List.map (map_leaves f) children, rest))
    end.
    { clear c. revert rest. induction IH as [|t ts Ht _ IHts]; intros rest.
      - reflexivity.
      - rewrite List.map_app, <- app_assoc, Ht, IHts. reflexivity. }
    by rewrite E.
Qed.

Lemma map_leaves_pack (f : Leaf -> Leaf) (args : list PyTree)
    (kw : list (string * PyTree)) :
  map_leaves f (pack args kw) =
  pack (List.map (map_leaves f) args)
       (List.map (fun kv => (fst kv, map_leaves f (snd kv))) kw).
Proof.
  unfold pack. cbn [map_leaves List.map]. rewrite !List.map_map. reflexivity.
Qed.

(** ** The gate *)

(** The gate of lines 33-43 for a mode built by [__init__], condition by
    condition. *)
Lemma shadowed_init_iff (ignore_op_fn : option (PyOp -> bool))
    (tags : PyOp -> list Tag) (func : PyOp) :
  shadowed (ignore_op_fn_of (__init__ ignore_op_fn)) tags func = true <->
  (func ∉ [ aten_op "lift_fresh" "default"; aten_op "lift_fresh_copy" "default";
            aten_op "set_" "source_Storage_storage_offset" ])
  /\ (forall f, ignore_op_fn = Some f -> f func = false)
  /\ (dynamic_output_shape ∉ tags func)
  /\ (inplace_view ∉ tags func)
  /\ (data_dependent_output ∉ tags func).
Proof.
  unfold shadowed, __init__. cbn [ignore_op_fn_of].
  rewrite !andb_true_iff, !negb_true_iff, !bool_decide_eq_false.
  split.
  - intros ((((H1 & H2) & H3) & H4) & H5). repeat split; try assumption.
    intros f ->. exact H2.
  - intros (H1 & H2 & H3 & H4 & H5). repeat split; try assumption.
    destruct ignore_op_fn as [f|]; [by apply H2 | reflexivity].
Qed.

Section Extra.
Variable ignore_op_fn : PyOp -> bool.
Variable tags : PyOp -> list Tag.
Variable str : PyOp -> string.
Variable from_tensor : Tensor -> Outcome Tensor.
Variable func_fake : PyOp -> PyTree -> Outcome PyTree.
Variable func_real : PyOp -> PyTree -> Outcome PyTree.

Local Abbreviation dispatch :=
  (__torch_dispatch__ ignore_op_fn tags str from_tensor func_fake func_real).
Local Abbreviation shadow := (shadow_phase ignore_op_fn tags from_tensor func_fake).
Local Abbreviation block := (fake_block from_tensor func_fake).
Local Abbreviation loop := (compare_leaves str).
Local Abbreviation lift_leaf := (on_tensor (fake_mode_from_tensor from_tensor)).
Local Abbreviation after_shadow_returns :=
  (FakeUtilsFacts.dispatch_real_returns ignore_op_fn tags str from_tensor func_fake func_real).
Local Abbreviation after_shadow_real_raises :=
  (FakeUtilsFacts.dispatch_real_raises ignore_op_fn tags str from_tensor func_fake func_real).
Local Abbreviation after_shadow_raises :=
  (FakeUtilsFacts.dispatch_shadow_raises ignore_op_fn tags str from_tensor func_fake func_real).
Local Abbreviation loop_app_agrees :=
  (FakeUtilsFacts.loop_app_agrees ignore_op_fn tags str from_tensor func_fake func_real).
Local Abbreviation loop_cons_agrees :=
  (FakeUtilsFacts.loop_cons_agrees ignore_op_fn tags str from_tensor func_fake func_real).
Local Abbreviation loop_all_agree :=
  (FakeUtilsFacts.loop_all_agree ignore_op_fn tags str from_tensor func_fake func_real).

(** ** Lifting the arguments *)

Lemma mapM_lift_prefix (lifted : Tensor -> Tensor) (pre rest : list Leaf) :
  (forall x, x ∈ tensor_leaves pre ->
             is_fake x = false /\ from_tensor x = Returns (lifted x)) ->
  mapM lift_leaf (pre ++ rest) =
  (List.map EvFromTensor (tensor_leaves pre) ++ calls (mapM lift_leaf rest),
   match value (mapM lift_leaf rest) with
   | Returns ys => Returns (List.map (lifted_leaf lifted) pre ++ ys)
   | Raises e => Raises e
   end).
Proof.
  induction pre as [|x pre IH]; intros Hpre.
  - simpl. by destruct (mapM lift_leaf rest) as [l [ys|e]].
  - rewrite <- app_comm_cons. cbn [mapM].
    assert (E : lift_leaf x = (List.map EvFromTensor (tensor_leaves [x]),
                               Returns (lifted_leaf lifted x))).
    { destruct x as [t|v]; [|reflexivity].
      destruct (Hpre t) as [Hf Ht]; [simpl; by left|].
      unfold on_tensor, fake_mode_from_tensor, call. rewrite Hf, Ht. reflexivity. }
    rewrite E, FakeUtilsFacts.bind_Returns, IH.
    + destruct (mapM lift_leaf rest) as [l [ys|e]]; destruct x; simpl;
        rewrite ?app_nil_r; reflexivity.
    + intros y Hy. apply Hpre. destruct x; simpl; [by right | exact Hy].
Qed.

Lemma mapM_lift_all (lifted : Tensor -> Tensor) (xs : list Leaf) :
  (forall x, x ∈ tensor_leaves xs ->
             is_fake x = false /\ from_tensor x = Returns (lifted x)) ->
  mapM lift_leaf xs =
  (List.map EvFromTensor (tensor_leaves xs), Returns (List.map (lifted_leaf lifted) xs)).
Proof.
  intros H. rewrite <- (app_nil_r xs) at 1.
  rewrite (mapM_lift_prefix lifted xs [] H). simpl. by rewrite !app_nil_r.
Qed.

(** X8: when every tensor leaf of the arguments is a real tensor for which
    [from_tensor] answers, the fake block lifts each of them once, in
    flattening order, and then runs [func] abstractly once, on arguments of
    the same structure in which the tensors are replaced by their lifted
    counterparts and all other leaves and the keyword names are as they
    were; what [func] answers there is the outcome of the block. *)
Theorem X8_fake_block_lifts_each_tensor_once
    (lifted : Tensor -> Tensor) (func : PyOp) (args : list PyTree)
    (kw : list (string * PyTree)) :
  (forall x, x ∈ tensor_leaves (tree_flatten (pack args kw)) ->
             is_fake x = false /\ from_tensor x = Returns (lifted x)) ->
  let fake_args := List.map (map_leaves (lifted_leaf lifted)) args in
  let fake_kwargs :=
    List.map (fun kv => (fst kv, map_leaves (lifted_leaf lifted) (snd kv))) kw in
  block func args kw =
  (List.map EvFromTensor (tensor_leaves (tree_flatten (pack args kw)))
     ++ [EvFakeCall func (pack fake_args fake_kwargs)],
   func_fake func (pack fake_args fake_kwargs)).
Proof.
  intros H fake_args fake_kwargs.
  unfold fake_block, tree_map. rewrite (mapM_lift_all lifted _ H).
  rewrite FakeUtilsFacts.bind_Returns. cbn [calls value ret fst snd].
  pose proof (tree_unflatten_map (lifted_leaf lifted) (pack args kw) []) as E.
  rewrite app_nil_r in E. rewrite E, map_leaves_pack. cbn [fst].
  rewrite FakeUtilsFacts.bind_Returns. unfold call. cbn [calls value fst snd].
  by rewrite app_nil_r.
Qed.

(** ** The shadow phase seen from the fake block *)

Lemma shadow_of_block_returns (func : PyOp) (args : list PyTree)
    (kw : list (string * PyTree)) (l : list Event) (fake_r : PyTree) :
  shadowed ignore_op_fn tags func = true ->
  block func args kw = (l, Returns fake_r) ->
  shadow func args kw = (l, Returns fake_r).
Proof. unfold shadow_phase. by intros -> ->. Qed.

Lemma shadow_of_block_raises (func : PyOp) (args : list PyTree)
    (kw : list (string * PyTree)) (l : list Event) (e : Exn) :
  shadowed ignore_op_fn tags func = true ->
  block func args kw = (l, Raises e) ->
  (forall m, e <> UnsupportedFakeTensorException m) ->
  shadow func args kw = (l, Raises e).
Proof.
  unfold shadow_phase. intros -> -> He.
  destruct e; try reflexivity. by destruct (He msg).
Qed.

Lemma shadow_raises_inv (func : PyOp) (args : list PyTree)
    (kw : list (string * PyTree)) (l : list Event) (e : Exn) :
  shadow func args kw = (l, Raises e) ->
  shadowed ignore_op_fn tags func = true
  /\ block func args kw = (l, Raises e)
  /\ (forall m, e <> UnsupportedFakeTensorException m).
Proof.
  unfold shadow_phase. destruct (shadowed _ _ _); [|discriminate].
  destruct (fake_block _ _ _ _ _) as [l' [v|e']]; [discriminate|].
  destruct e'; simpl; intros H; try discriminate H;
    injection H as -> <-; repeat split; discriminate.
Qed.

Lemma calls_tree_map (t : PyTree) :
  calls (tree_map lift_leaf t) = calls (mapM lift_leaf (tree_flatten t)).
Proof.
  unfold tree_map. rewrite FakeUtilsFacts.calls_bind.
  destruct (value (mapM _ _)); simpl; by rewrite app_nil_r.
Qed.

Lemma block_log_shape (func : PyOp) (args : list PyTree) (kw : list (string * PyTree)) :
  exists lifts fake,
    calls (block func args kw) = lifts ++ fake
    /\ Forall (fun ev => is_from_tensor ev = true) lifts
    /\ (fake = [] \/ exists a, fake = [EvFakeCall func a]).
Proof.
  unfold fake_block. rewrite FakeUtilsFacts.calls_bind, calls_tree_map.
  eexists _, _. split; [reflexivity|]. split.
  - apply FakeUtilsFacts.mapM_only_lifts.
  - destruct (value (tree_map _ _)); simpl; eauto.
Qed.

Lemma shadow_log_shape (func : PyOp) (args : list PyTree) (kw : list (string * PyTree)) :
  exists lifts fake,
    calls (shadow func args kw) = lifts ++ fake
    /\ Forall (fun ev => is_from_tensor ev = true) lifts
    /\ (fake = [] \/ exists a, fake = [EvFakeCall func a])
    /\ (shadowed ignore_op_fn tags func = false -> lifts = [] /\ fake = []).
Proof.
  unfold shadow_phase. destruct (shadowed _ _ _).
  - destruct (block_log_shape func args kw) as (lifts & fake & E & Hl & Hf).
    exists lifts, fake. repeat split; try assumption; try discriminate.
    rewrite <- E. destruct (fake_block _ _ _ _ _) as [l [v|[]]]; simpl;
      by rewrite ?app_nil_r.
  - exists [], []. repeat split; auto.
Qed.

Lemma shadow_never_compares (func : PyOp) (args : list PyTree)
    (kw : list (string * PyTree)) :
  Forall (fun ev => is_compare ev = false) (calls (shadow func args kw)).
Proof.
  destruct (shadow_log_shape func args kw) as (lifts & fake & -> & Hl & Hf & _).
  apply Forall_app. split.
  - eapply Forall_impl; [exact Hl|]. by intros [] ?.
  - destruct Hf as [-> | [a ->]]; repeat constructor.
Qed.

(** ** The loop *)

Lemma loop_raises_kind (func : PyOp) (pairs : list (Leaf * Leaf)) (e : Exn) :
  value (loop func pairs) = Raises e ->
  e = AssertionError ""
  \/ exists e', e = RuntimeError ("Mismatch on " +:+ str func +:+ ": " +:+ repr e').
Proof.
  induction pairs as [|[[a|u] [b|v]] rest IH].
  - discriminate.
  - destruct (compare_tensor_meta a b true) as [e0|] eqn:E.
    + rewrite (FakeUtilsFacts.loop_head_differs _ _ _ _ _ _ E). simpl.
      intros [= <-]. eauto.
    + apply FakeUtilsFacts.compare_tensor_meta_None in E.
      rewrite (loop_cons_agrees func (TensorLeaf a, TensorLeaf b) rest E). exact IH.
  - rewrite FakeUtilsFacts.loop_head_mixed by (by unfold same_kind).
    simpl. intros [= <-]. auto.
  - rewrite FakeUtilsFacts.loop_head_mixed by (by unfold same_kind).
    simpl. intros [= <-]. auto.
  - rewrite (loop_cons_agrees func (OpaqueLeaf u, OpaqueLeaf v) rest I). exact IH.
Qed.

Lemma loop_compares_pairs (func : PyOp) (pairs : list (Leaf * Leaf)) (a b : Tensor) :
  EvCompare a b ∈ calls (loop func pairs) ->
  (TensorLeaf a, TensorLeaf b) ∈ pairs.
Proof.
  induction pairs as [|[[x|u] [y|v]] rest IH].
  - simpl. by intros ?%elem_of_nil.
  - destruct (compare_tensor_meta x y true) as [e0|] eqn:E.
    + rewrite (FakeUtilsFacts.loop_head_differs _ _ _ _ _ _ E). simpl.
      intros [= -> ->]%list_elem_of_singleton. by left.
    + apply FakeUtilsFacts.compare_tensor_meta_None in E.
      rewrite (loop_cons_agrees func (TensorLeaf x, TensorLeaf y) rest E). simpl.
      intros [[= -> ->]|H]%elem_of_cons; [by left | right; by apply IH].
  - rewrite FakeUtilsFacts.loop_head_mixed by (by unfold same_kind).
    simpl. by intros ?%elem_of_nil.
  - rewrite FakeUtilsFacts.loop_head_mixed by (by unfold same_kind).
    simpl. by intros ?%elem_of_nil.
  - rewrite (loop_cons_agrees func (OpaqueLeaf u, OpaqueLeaf v) rest I). simpl.
    intros H. right. by apply IH.
Qed.

Lemma loop_returns_agree (func : PyOp) (pairs : list (Leaf * Leaf)) (u : unit) :
  value (loop func pairs) = Returns u -> Forall pair_agrees pairs.
Proof.
  intros H.
  destruct (FakeUtilsFacts.first_failure from_tensor pairs)
    as [Hall | (pre & p & post & -> & Hpre & Hp)]; [exact Hall|].
  rewrite (loop_app_agrees func pre (p :: post) Hpre) in H.
  change (value (loop func (p :: post)) = Returns u) in H.
  destruct (FakeUtilsFacts.loop_failure str func p post Hp) as [e He].
  rewrite He in H. discriminate.
Qed.

(** ** The dispatch *)

(** X9: an exception other than the unsupported signal that leaves the fake
    block (from lifting, from the assertion on a fake argument, or from
    running [func] abstractly) is the outcome of the dispatch, and [func] is
    not run for real. *)
Theorem X9_fake_block_error_stops_the_call
    (func : PyOp) (types : list string) (args : list PyTree)
    (kwargs : option (list (string * PyTree))) (l : list Event) (e : Exn) :
  shadowed ignore_op_fn tags func = true ->
  block func args (kwargs_or_empty kwargs) = (l, Raises e) ->
  (forall m, e <> UnsupportedFakeTensorException m) ->
  dispatch func types args kwargs = (l, Raises e)
  /\ List.filter is_real_call (calls (dispatch func types args kwargs)) = [].
Proof.
  intros Hsh Hb He.
  pose proof (shadow_of_block_raises _ _ _ _ _ Hsh Hb He) as Hs.
  rewrite (after_shadow_raises func types args kwargs l e Hs). split; [reflexivity|].
  apply FakeUtilsFacts.filter_none.
  pose proof (FakeUtilsFacts.block_never_calls_for_real from_tensor func_fake
                func args (kwargs_or_empty kwargs)) as H.
  by rewrite Hb in H.
Qed.

(** X10: when running [func] for real raises, that exception is the outcome
    of the dispatch, the real call is the last thing logged, and nothing is
    compared even if a fake result is at hand. *)
Theorem X10_real_error_propagates
    (func : PyOp) (types : list string) (args : list PyTree)
    (kwargs : option (list (string * PyTree)))
    (l : list Event) (fake_r : PyTree) (e : Exn) :
  shadow func args (kwargs_or_empty kwargs) = (l, Returns fake_r) ->
  func_real func (pack args (kwargs_or_empty kwargs)) = Raises e ->
  dispatch func types args kwargs
  = (l ++ [EvRealCall func (pack args (kwargs_or_empty kwargs))], Raises e)
  /\ List.filter is_compare (calls (dispatch func types args kwargs)) = [].
Proof.
  intros Hs Hr.
  rewrite (after_shadow_real_raises func types args kwargs l fake_r e Hs Hr).
  split; [reflexivity|].
  apply FakeUtilsFacts.filter_none. apply Forall_app. split; [|by repeat constructor].
  pose proof (shadow_never_compares func args (kwargs_or_empty kwargs)) as H.
  by rewrite Hs in H.
Qed.

(** X11: when [func] run abstractly returns [None], nothing is compared,
    whatever the real result is: after the fake block only the real call is
    made, and its outcome is the outcome of the dispatch. *)
Theorem X11_fake_None_skips_comparison
    (func : PyOp) (types : list string) (args : list PyTree)
    (kwargs : option (list (string * PyTree))) (l : list Event) :
  shadowed ignore_op_fn tags func = true ->
  block func args (kwargs_or_empty kwargs) = (l, Returns None_) ->
  dispatch func types args kwargs
  = (l ++ [EvRealCall func (pack args (kwargs_or_empty kwargs))],
     func_real func (pack args (kwargs_or_empty kwargs))).
Proof.
  intros Hsh Hb.
  pose proof (shadow_of_block_returns _ _ _ _ _ Hsh Hb) as Hs.
  destruct (func_real func (pack args (kwargs_or_empty kwargs))) as [r|e] eqn:Hr.
  - by rewrite (after_shadow_returns func types args kwargs l None_ r Hs Hr).
  - by rewrite (after_shadow_real_raises func types args kwargs l None_ e Hs Hr).
Qed.

(** X12: when the first zipped pair that fails a check consists of a tensor
    and a non-tensor, the dispatch raises the bare [AssertionError] of the
    kind check, after comparing the tensor pairs before it and none after
    it. *)
Theorem X12_mixed_pair_trips_kind_assertion
    (func : PyOp) (types : list string) (args : list PyTree)
    (kwargs : option (list (string * PyTree)))
    (l : list Event) (fake_r r : PyTree)
    (pre post : list (Leaf * Leaf)) (p : Leaf * Leaf) :
  shadow func args (kwargs_or_empty kwargs) = (l, Returns fake_r) ->
  is_not_None fake_r = true ->
  func_real func (pack args (kwargs_or_empty kwargs)) = Returns r ->
  combine (tree_flatten r) (tree_flatten fake_r) = pre ++ p :: post ->
  Forall pair_agrees pre ->
  ~ same_kind p ->
  dispatch func types args kwargs
  = (l ++ EvRealCall func (pack args (kwargs_or_empty kwargs)) :: compare_events pre,
     Raises (AssertionError "")).
Proof.
  intros Hs Hn Hr Hpairs Hpre Hp.
  rewrite (after_shadow_returns func types args kwargs l fake_r r Hs Hr), Hn, Hpairs.
  rewrite (loop_app_agrees func pre (p :: post) Hpre).
  rewrite (FakeUtilsFacts.loop_head_mixed str func p post Hp).
  simpl. by rewrite app_nil_r.
Qed.

(** X13: the dispatch returns a value exactly when the shadow phase did not
    raise, the real call returned, and either no fake result is at hand or
    all zipped pairs of leaves agree; the value is then the real result. *)
Theorem X13_returns_iff
    (func : PyOp) (types : list string) (args : list PyTree)
    (kwargs : option (list (string * PyTree))) (r : PyTree) :
  value (dispatch func types args kwargs) = Returns r <->
  exists l fake_r,
    shadow func args (kwargs_or_empty kwargs) = (l, Returns fake_r)
    /\ func_real func (pack args (kwargs_or_empty kwargs)) = Returns r
    /\ (is_not_None fake_r = true ->
        Forall pair_agrees (combine (tree_flatten r) (tree_flatten fake_r))).
Proof.
  split.
  - destruct (shadow func args (kwargs_or_empty kwargs)) as [l [fake_r|e]] eqn:Hs;
      [|by rewrite (after_shadow_raises func types args kwargs l e Hs)].
    destruct (func_real func (pack args (kwargs_or_empty kwargs))) as [r'|e] eqn:Hr;
      [|by rewrite (after_shadow_real_raises func types args kwargs l fake_r e Hs Hr)].
    rewrite (after_shadow_returns func types args kwargs l fake_r r' Hs Hr).
    cbn [value snd].
    destruct (is_not_None fake_r) eqn:Hn.
    + destruct (value (loop func (combine (tree_flatten r') (tree_flatten fake_r))))
        as [u|e] eqn:Hl; [|discriminate].
      intros [= ->]. exists l, fake_r. repeat split.
      intros _. by apply (loop_returns_agree func _ u).
    + simpl. intros [= ->]. exists l, fake_r. repeat split. intros E; congruence.
  - intros (l & fake_r & Hs & Hr & Ha).
    rewrite (after_shadow_returns func types args kwargs l fake_r r Hs Hr).
    cbn [value snd].
    destruct (is_not_None fake_r); [|reflexivity].
    by rewrite (loop_all_agree func _ (Ha eq_refl)).
Qed.

(** X14: the log of a dispatch has three phases in this order: liftings,
    then at most one abstract run of [func]; then at most one real run of
    [func], on the original arguments; then comparisons.  Nothing is
    compared unless the real call was made, and a skipped shadow phase logs
    nothing. *)
Theorem X14_log_has_three_phases
    (func : PyOp) (types : list string) (args : list PyTree)
    (kwargs : option (list (string * PyTree))) :
  exists lifts fake real compares,
    calls (dispatch func types args kwargs) = lifts ++ fake ++ real ++ compares
    /\ Forall (fun ev => is_from_tensor ev = true) lifts
    /\ (fake = [] \/ exists a, fake = [EvFakeCall func a])
    /\ (real = [] \/ real = [EvRealCall func (pack args (kwargs_or_empty kwargs))])
    /\ Forall (fun ev => is_compare ev = true) compares
    /\ (real = [] -> compares = [])
    /\ (shadowed ignore_op_fn tags func = false -> lifts = [] /\ fake = []).
Proof.
  destruct (shadow_log_shape func args (kwargs_or_empty kwargs))
    as (lifts & fake & E & Hl & Hf & Hsk).
  exists lifts, fake.
  destruct (shadow func args (kwargs_or_empty kwargs)) as [l [fake_r|e]] eqn:Hs.
  2: { exists [], []. rewrite (after_shadow_raises func types args kwargs l e Hs).
       simpl in *. rewrite !app_nil_r.
       repeat split; auto using Forall_nil; by apply Hsk. }
  destruct (func_real func (pack args (kwargs_or_empty kwargs))) as [r|e] eqn:Hr.
  - exists [EvRealCall func (pack args (kwargs_or_empty kwargs))],
      (calls (if is_not_None fake_r
              then loop func (combine (tree_flatten r) (tree_flatten fake_r))
              else ret tt)).
    rewrite (after_shadow_returns func types args kwargs l fake_r r Hs Hr).
    simpl in E. subst l. cbn [calls fst].
    split; [rewrite <- app_assoc; reflexivity|].
    assert (Hc : Forall (fun ev => is_compare ev = true)
                   (calls (if is_not_None fake_r
                           then loop func (combine (tree_flatten r) (tree_flatten fake_r))
                           else ret tt))).
    { destruct (is_not_None fake_r); [|constructor].
      eapply Forall_impl; [apply FakeUtilsFacts.loop_only_compares|].
      by intros ev (a & b & ->). }
    repeat split; auto; try discriminate; by apply Hsk.
  - exists [EvRealCall func (pack args (kwargs_or_empty kwargs))], [].
    rewrite (after_shadow_real_raises func types args kwargs l fake_r e Hs Hr).
    simpl in E. subst l. cbn [calls fst].
    split; [by rewrite <- app_assoc, app_nil_r|].
    repeat split; auto using Forall_nil; try discriminate; by apply Hsk.
Qed.

(** X15: every comparison logged is between a tensor leaf of the real result
    and the tensor leaf at the same position of the fake result. *)
Theorem X15_compares_leaves_at_same_position
    (func : PyOp) (types : list string) (args : list PyTree)
    (kwargs : option (list (string * PyTree)))
    (l : list Event) (fake_r r : PyTree) (a b : Tensor) :
  shadow func args (kwargs_or_empty kwargs) = (l, Returns fake_r) ->
  func_real func (pack args (kwargs_or_empty kwargs)) = Returns r ->
  EvCompare a b ∈ calls (dispatch func types args kwargs) ->
  exists i : nat,
    tree_flatten r !! i = Some (TensorLeaf a)
    /\ tree_flatten fake_r !! i = Some (TensorLeaf b).
Proof.
  intros Hs Hr.
  rewrite (after_shadow_returns func types args kwargs l fake_r r Hs Hr).
  cbn [calls fst].
  pose proof (shadow_never_compares func args (kwargs_or_empty kwargs)) as Hl.
  rewrite Hs in Hl. cbn [calls fst] in Hl.
  intros [H | H]%elem_of_app.
  { rewrite Forall_forall in Hl. by specialize (Hl _ H). }
  apply elem_of_cons in H as [H|H]; [discriminate H|].
  destruct (is_not_None fake_r); [|by apply elem_of_nil in H].
  apply loop_compares_pairs in H.
  apply list_elem_of_lookup in H as [i Hi].
  exists i. revert Hi. generalize (tree_flatten r) (tree_flatten fake_r). clear.
  induction i as [|i IH]; intros [|x xs] [|y ys]; simpl; try discriminate.
  - by intros [= -> ->].
  - apply IH.
Qed.

(** X16: lifting stops at the first tensor leaf on which [from_tensor]
    raises: the leaves after it are not lifted and [func] is not run
    abstractly.  If what is raised is the unsupported signal, the real call
    follows and decides the outcome; any other exception is the outcome and
    [func] is not run at all. *)
Theorem X16_lifting_stops_at_first_failure
    (lifted : Tensor -> Tensor) (func : PyOp) (types : list string)
    (args : list PyTree) (kwargs : option (list (string * PyTree)))
    (pre post : list Leaf) (t : Tensor) (e : Exn) :
  shadowed ignore_op_fn tags func = true ->
  tree_flatten (pack args (kwargs_or_empty kwargs)) = pre ++ TensorLeaf t :: post ->
  (forall x, x ∈ tensor_leaves pre ->
             is_fake x = false /\ from_tensor x = Returns (lifted x)) ->
  is_fake t = false ->
  from_tensor t = Raises e ->
  ((exists m, e = UnsupportedFakeTensorException m) ->
   dispatch func types args kwargs
   = (List.map EvFromTensor (tensor_leaves pre)
        ++ [EvFromTensor t; EvRealCall func (pack args (kwargs_or_empty kwargs))],
      func_real func (pack args (kwargs_or_empty kwargs))))
  /\ ((forall m, e <> UnsupportedFakeTensorException m) ->
      dispatch func types args kwargs
      = (List.map EvFromTensor (tensor_leaves pre) ++ [EvFromTensor t], Raises e)).
Proof.
  intros Hsh Hfl Hpre Hf Ht.
  assert (Hb : block func args (kwargs_or_empty kwargs)
               = (List.map EvFromTensor (tensor_leaves pre) ++ [EvFromTensor t],
                  Raises e)).
  { assert (Em : mapM lift_leaf (TensorLeaf t :: post) = ([EvFromTensor t], Raises e)).
    { cbn [mapM]. unfold on_tensor at 1, fake_mode_from_tensor, call.
      rewrite Hf, Ht. reflexivity. }
    unfold fake_block, tree_map.
    rewrite Hfl, (mapM_lift_prefix lifted pre _ Hpre), Em. reflexivity. }
  split.
  - intros [m ->].
    pose proof (FakeUtilsFacts.shadow_unsupported ignore_op_fn tags from_tensor
                  func_fake func args (kwargs_or_empty kwargs) _ m Hsh Hb) as Hs.
    destruct (func_real func (pack args (kwargs_or_empty kwargs))) as [r|e] eqn:Hr.
    + rewrite (after_shadow_returns func types args kwargs _ None_ r Hs Hr).
      simpl. by rewrite <- app_assoc.
    + rewrite (after_shadow_real_raises func types args kwargs _ None_ e Hs Hr).
      by rewrite <- app_assoc.
  - intros He.
    pose proof (shadow_of_block_raises _ _ _ _ _ Hsh Hb He) as Hs.
    by rewrite (after_shadow_raises func types args kwargs _ e Hs).
Qed.

(** X17: an exception raised by the dispatch is one that left the fake
    block and is not the unsupported signal, or the one the real call raised,
    or the [AssertionError] of the kind check, or the [RuntimeError] naming
    [func]; in particular an unsupported signal seen by the caller comes from
    the real call, never from the shadow phase. *)
Theorem X17_raised_exception_provenance
    (func : PyOp) (types : list string) (args : list PyTree)
    (kwargs : option (list (string * PyTree))) (e : Exn) :
  value (dispatch func types args kwargs) = Raises e ->
  ((shadowed ignore_op_fn tags func = true
    /\ (exists l, block func args (kwargs_or_empty kwargs) = (l, Raises e))
    /\ (forall m, e <> UnsupportedFakeTensorException m))
   \/ func_real func (pack args (kwargs_or_empty kwargs)) = Raises e
   \/ e = AssertionError ""
   \/ exists e', e = RuntimeError ("Mismatch on " +:+ str func +:+ ": " +:+ repr e'))
  /\ (forall m, e = UnsupportedFakeTensorException m ->
      func_real func (pack args (kwargs_or_empty kwargs)) = Raises e).
Proof.
  intros H.
  assert (D : (shadowed ignore_op_fn tags func = true
               /\ (exists l, block func args (kwargs_or_empty kwargs) = (l, Raises e))
               /\ (forall m, e <> UnsupportedFakeTensorException m))
              \/ func_real func (pack args (kwargs_or_empty kwargs)) = Raises e
              \/ e = AssertionError ""
              \/ exists e', e = RuntimeError
                                  ("Mismatch on " +:+ str func +:+ ": " +:+ repr e')).
  { revert H.
    destruct (shadow func args (kwargs_or_empty kwargs)) as [l [fake_r|e0]] eqn:Hs.
    2: { rewrite (after_shadow_raises func types args kwargs l e0 Hs).
         intros [= ->]. left.
         destruct (shadow_raises_inv _ _ _ _ _ Hs) as (? & ? & ?). eauto. }
    destruct (func_real func (pack args (kwargs_or_empty kwargs))) as [r|e0] eqn:Hr.
    2: { rewrite (after_shadow_real_raises func types args kwargs l fake_r e0 Hs Hr).
         intros [= ->]. auto. }
    rewrite (after_shadow_returns func types args kwargs l fake_r r Hs Hr).
    cbn [value snd].
    destruct (is_not_None fake_r); [|discriminate].
    destruct (value (loop func (combine (tree_flatten r) (tree_flatten fake_r))))
      as [u|e0] eqn:Hl; [discriminate|].
    intros [= ->]. right; right. by apply (loop_raises_kind func _ e Hl). }
  split; [exact D|].
  intros m ->.
  destruct D as [(_ & _ & Hne) | [Hr | [Ha | [e' He']]]];
    [by destruct (Hne m) | exact Hr | discriminate Ha | discriminate He'].
Qed.

(** ** When [func] is run abstractly *)

Lemma fake_block_lifted (lifted : Tensor -> Tensor) (func : PyOp) (args : list PyTree)
    (kw : list (string * PyTree)) :
  (forall x, x ∈ tensor_leaves (tree_flatten (pack args kw)) ->
             is_fake x = false /\ from_tensor x = Returns (lifted x)) ->
  calls (block func args kw) =
  List.map EvFromTensor (tensor_leaves (tree_flatten (pack args kw)))
    ++ [EvFakeCall func (map_leaves (lifted_leaf lifted) (pack args kw))].
Proof.
  intros H. unfold fake_block, tree_map. rewrite (mapM_lift_all lifted _ H).
  rewrite FakeUtilsFacts.bind_Returns. cbn [calls value ret fst snd].
  pose proof (tree_unflatten_map (lifted_leaf lifted) (pack args kw) []) as E.
  rewrite app_nil_r in E. rewrite E. cbn [fst].
  rewrite FakeUtilsFacts.bind_Returns. unfold call. cbn [calls value fst snd].
  by rewrite app_nil_r.
Qed.

Lemma calls_shadow_when_shadowed (func : PyOp) (args : list PyTree)
    (kw : list (string * PyTree)) :
  shadowed ignore_op_fn tags func = true ->
  calls (shadow func args kw) = calls (block func args kw).
Proof.
  unfold shadow_phase. intros ->.
  destruct (fake_block _ _ _ _ _) as [l [v|[]]]; simpl; by rewrite ?app_nil_r.
Qed.

Lemma dispatch_calls_after_shadow (func : PyOp) (types : list string)
    (args : list PyTree) (kwargs : option (list (string * PyTree))) :
  exists tail,
    calls (dispatch func types args kwargs)
    = calls (shadow func args (kwargs_or_empty kwargs)) ++ tail
    /\ Forall (fun ev => is_fake_call ev = false) tail.
Proof.
  destruct (shadow func args (kwargs_or_empty kwargs)) as [l [fake_r|e]] eqn:Hs.
  2: { exists []. rewrite (after_shadow_raises func types args kwargs l e Hs).
       simpl. by rewrite app_nil_r. }
  destruct (func_real func (pack args (kwargs_or_empty kwargs))) as [r|e] eqn:Hr.
  - eexists. rewrite (after_shadow_returns func types args kwargs l fake_r r Hs Hr).
    split; [reflexivity|]. constructor; [reflexivity|].
    destruct (is_not_None fake_r); [|constructor].
    eapply Forall_impl; [apply FakeUtilsFacts.loop_only_compares|].
    by intros ev (a & b & ->).
  - eexists. rewrite (after_shadow_real_raises func types args kwargs l fake_r e Hs Hr).
    split; [reflexivity|]. by repeat constructor.
Qed.

Lemma abstract_run_iff_shadowed (lifted : Tensor -> Tensor) (func : PyOp)
    (types : list string) (args : list PyTree)
    (kwargs : option (list (string * PyTree))) :
  (forall x, x ∈ tensor_leaves (tree_flatten (pack args (kwargs_or_empty kwargs))) ->
             is_fake x = false /\ from_tensor x = Returns (lifted x)) ->
  ((exists a, EvFakeCall func a ∈ calls (dispatch func types args kwargs))
   <-> shadowed ignore_op_fn tags func = true)
  /\ (shadowed ignore_op_fn tags func = true ->
      exists rest,
        calls (dispatch func types args kwargs)
        = List.map EvFromTensor
            (tensor_leaves (tree_flatten (pack args (kwargs_or_empty kwargs))))
          ++ EvFakeCall func
               (map_leaves (lifted_leaf lifted) (pack args (kwargs_or_empty kwargs)))
          :: rest).
Proof.
  intros H.
  destruct (dispatch_calls_after_shadow func types args kwargs) as (tail & E & Ht).
  assert (Hrun : shadowed ignore_op_fn tags func = true ->
                 exists rest,
                   calls (dispatch func types args kwargs)
                   = List.map EvFromTensor
                       (tensor_leaves (tree_flatten (pack args (kwargs_or_empty kwargs))))
                     ++ EvFakeCall func
                          (map_leaves (lifted_leaf lifted)
                             (pack args (kwargs_or_empty kwargs)))
                     :: rest).
  { intros Hsh. exists tail.
    rewrite E, (calls_shadow_when_shadowed _ _ _ Hsh), (fake_block_lifted lifted _ _ _ H).
    by rewrite <- app_assoc. }
  split; [|exact Hrun]. split.
  - intros [a Ha].
    destruct (shadowed ignore_op_fn tags func) eqn:Hsh; [reflexivity|].
    rewrite E in Ha.
    rewrite (FakeUtilsFacts.shadow_skipped ignore_op_fn tags from_tensor func_fake
               func args (kwargs_or_empty kwargs) Hsh) in Ha.
    simpl in Ha. rewrite Forall_forall in Ht. by specialize (Ht _ Ha).
  - intros Hsh. destruct (Hrun Hsh) as [rest ->].
    eexists. apply elem_of_app. right. by left.
Qed.

End Extra.

(** X7: for a mode built by [__init__], with arguments whose tensor leaves
    are real tensors that [from_tensor] lifts, the dispatch runs [func]
    abstractly exactly when [func] is none of the three operators listed,
    the predicate given at construction (if one was given) does not hold of
    it, and its tags contain none of [dynamic_output_shape], [inplace_view],
    [data_dependent_output]; a mode built without a predicate ignores no
    operator.  The log then starts with one lifting per tensor leaf of the
    arguments received and the abstract run on the lifted arguments. *)
Theorem X7_abstract_run_iff (ignore_op_fn : option (PyOp -> bool))
    (tags : PyOp -> list Tag) (str : PyOp -> string)
    (from_tensor : Tensor -> Outcome Tensor)
    (func_fake func_real : PyOp -> PyTree -> Outcome PyTree)
    (lifted : Tensor -> Tensor) (func : PyOp) (types : list string)
    (args : list PyTree) (kwargs : option (list (string * PyTree))) :
  let received :=
    match kwargs with
    | Some kw => kw
    | None => []
    end in
  let original :=
    ContainerNode PyTuple
      [ContainerNode PyTuple args;
       ContainerNode (PyDict (List.map fst received)) (List.map snd received)] in
  let log :=
    calls (__torch_dispatch__ (ignore_op_fn_of (__init__ ignore_op_fn)) tags str
             from_tensor func_fake func_real func types args kwargs) in
  let shadowed_by_design :=
    (func ∉ [ aten_op "lift_fresh" "default"; aten_op "lift_fresh_copy" "default";
              aten_op "set_" "source_Storage_storage_offset" ])
    /\ (forall f, ignore_op_fn = Some f -> f func = false)
    /\ (dynamic_output_shape ∉ tags func)
    /\ (inplace_view ∉ tags func)
    /\ (data_dependent_output ∉ tags func) in
  (forall x, x ∈ tensor_leaves (tree_flatten original) ->
             is_fake x = false /\ from_tensor x = Returns (lifted x)) ->
  ((exists a, EvFakeCall func a ∈ log) <-> shadowed_by_design)
  /\ (shadowed_by_design ->
      exists rest,
        log = List.map EvFromTensor (tensor_leaves (tree_flatten original))
              ++ EvFakeCall func (map_leaves (lifted_leaf lifted) original) :: rest).
Proof.
  intros received original log shadowed_by_design H.
  unfold shadowed_by_design. rewrite <- shadowed_init_iff.
  unfold log, original, received in *.
  rewrite <- (FakeUtilsFacts.pack_original args kwargs) in *.
  apply (abstract_run_iff_shadowed (ignore_op_fn_of (__init__ ignore_op_fn)) tags str
           from_tensor func_fake func_real lifted func types args kwargs H).
Qed.

Import Fixtures.

Lemma X7_witness :
  exists rest,
    calls (__torch_dispatch__ (ignore_op_fn_of (__init__ None)) no_tags dotted lift
             echo echo add_Tensor [] two_real_args (Some alpha_kwarg))
    = [EvFromTensor (real_vec 2); EvFromTensor (real_vec 3)]
      ++ EvFakeCall add_Tensor two_args_alpha_lifted :: rest.
Proof.
  assert (Hl : forall x,
             x ∈ tensor_leaves (tree_flatten two_args_alpha) ->
             is_fake x = false /\ lift x = Returns (as_fake x)).
  { intros x Hx. simpl in Hx.
    apply elem_of_cons in Hx as [-> | Hx]; [split; reflexivity|].
    apply elem_of_cons in Hx as [-> | Hx]; [split; reflexivity|].
    by apply elem_of_nil in Hx. }
  apply (proj2 (X7_abstract_run_iff None no_tags dotted lift echo echo as_fake
                  add_Tensor [] two_real_args (Some alpha_kwarg) Hl)).
  repeat split.
  - intros Hin.
    repeat (apply elem_of_cons in Hin as [Hin | Hin]; [discriminate Hin|]).
    by apply elem_of_nil in Hin.
  - intros f Hf. discriminate Hf.
  - apply not_elem_of_nil.
  - apply not_elem_of_nil.
  - apply not_elem_of_nil.
Defined.

Lemma X8_witness :
  fake_block lift fake_vec2 add_Tensor two_real_args alpha_kwarg
  = ([EvFromTensor (real_vec 2); EvFromTensor (real_vec 3)]
       ++ [EvFakeCall add_Tensor
             (pack [tensor (fake_vec 2); int_ 1; tensor (fake_vec 3)] alpha_kwarg)],
     Returns (tensor (fake_vec 2))).
Proof.
  apply (X8_fake_block_lifts_each_tensor_once lift fake_vec2 as_fake add_Tensor
           two_real_args alpha_kwarg).
  intros x Hx. simpl in Hx.
  apply elem_of_cons in Hx as [-> | Hx]; [split; reflexivity|].
  apply elem_of_cons in Hx as [-> | Hx]; [split; reflexivity|].
  by apply elem_of_nil in Hx.
Defined.

Lemma X9_witness :
  __torch_dispatch__ never_ignore no_tags dotted lift fake_fails real_vec2
    add_Tensor [] one_real_arg None
  = ([EvFromTensor (real_vec 2); EvFakeCall add_Tensor (pack one_fake_arg [])],
     Raises (OtherException "no fake kernel"))
  /\ List.filter is_real_call
       (calls (__torch_dispatch__ never_ignore no_tags dotted lift fake_fails real_vec2
                 add_Tensor [] one_real_arg None)) = [].
Proof.
  apply (X9_fake_block_error_stops_the_call never_ignore no_tags dotted lift fake_fails
           real_vec2 add_Tensor [] one_real_arg None).
  - reflexivity.
  - reflexivity.
  - intros m E. discriminate E.
Defined.

Lemma X10_witness :
  __torch_dispatch__ never_ignore no_tags dotted lift fake_vec2 real_fails
    add_Tensor [] one_real_arg None
  = ([EvFromTensor (real_vec 2); EvFakeCall add_Tensor (pack one_fake_arg [])]
       ++ [EvRealCall add_Tensor (pack one_real_arg [])],
     Raises (OtherException "bad argument"))
  /\ List.filter is_compare
       (calls (__torch_dispatch__ never_ignore no_tags dotted lift fake_vec2 real_fails
                 add_Tensor [] one_real_arg None)) = [].
Proof.
  apply (X10_real_error_propagates never_ignore no_tags dotted lift fake_vec2 real_fails
           add_Tensor [] one_real_arg None
           [EvFromTensor (real_vec 2); EvFakeCall add_Tensor (pack one_fake_arg [])]
           (tensor (fake_vec 2))).
  - reflexivity.
  - reflexivity.
Defined.

Lemma X11_witness :
  __torch_dispatch__ never_ignore no_tags dotted lift fake_None real_vec2
    add_Tensor [] one_real_arg None
  = ([EvFromTensor (real_vec 2); EvFakeCall add_Tensor (pack one_fake_arg [])]
       ++ [EvRealCall add_Tensor (pack one_real_arg [])],
     Returns (tensor (real_vec 2))).
Proof.
  apply (X11_fake_None_skips_comparison never_ignore no_tags dotted lift fake_None
           real_vec2 add_Tensor [] one_real_arg None).
  - reflexivity.
  - reflexivity.
Defined.

Lemma X12_witness :
  __torch_dispatch__ never_ignore no_tags dotted lift fake_vec_then_vec5
    real_int_then_vec2 add_Tensor [] one_real_arg None
  = ([EvFromTensor (real_vec 2); EvFakeCall add_Tensor (pack one_fake_arg [])]
       ++ EvRealCall add_Tensor (pack one_real_arg []) :: compare_events [],
     Raises (AssertionError "")).
Proof.
  apply (X12_mixed_pair_trips_kind_assertion never_ignore no_tags dotted lift
           fake_vec_then_vec5 real_int_then_vec2 add_Tensor [] one_real_arg None
           [EvFromTensor (real_vec 2); EvFakeCall add_Tensor (pack one_fake_arg [])]
           (ContainerNode PyTuple [tensor (fake_vec 1); tensor (fake_vec 5)])
           (ContainerNode PyTuple [int_ 3; tensor (real_vec 2)])
           [] [(TensorLeaf (real_vec 2), TensorLeaf (fake_vec 5))]
           (OpaqueLeaf (PyInt 3), TensorLeaf (fake_vec 1))).
  - reflexivity.
  - reflexivity.
  - reflexivity.
  - reflexivity.
  - constructor.
  - unfold same_kind. simpl. discriminate.
Defined.

Lemma X15_witness :
  exists i : nat,
    tree_flatten (tensor (real_vec 2)) !! i = Some (TensorLeaf (real_vec 2))
    /\ tree_flatten (tensor (fake_vec 2)) !! i = Some (TensorLeaf (fake_vec 2)).
Proof.
  apply (X15_compares_leaves_at_same_position never_ignore no_tags dotted lift fake_vec2
           real_vec2 add_Tensor [] one_real_arg None
           [EvFromTensor (real_vec 2); EvFakeCall add_Tensor (pack one_fake_arg [])]
           (tensor (fake_vec 2)) (tensor (real_vec 2)) (real_vec 2) (fake_vec 2)).
  - reflexivity.
  - reflexivity.
  - change (EvCompare (real_vec 2) (fake_vec 2)
            ∈ [EvFromTensor (real_vec 2); EvFakeCall add_Tensor (pack one_fake_arg []);
               EvRealCall add_Tensor (pack one_real_arg []);
               EvCompare (real_vec 2) (fake_vec 2)]).
    do 3 apply list_elem_of_further. apply list_elem_of_here.
Defined.

Lemma X16_witness :
  __torch_dispatch__ never_ignore no_tags dotted lift_not_3 fake_vec2 real_vec2
    add_Tensor [] two_real_args (Some alpha_kwarg)
  = (List.map EvFromTensor (tensor_leaves [TensorLeaf (real_vec 2); OpaqueLeaf (PyInt 1)])
       ++ [EvFromTensor (real_vec 3);
           EvRealCall add_Tensor (pack two_real_args (kwargs_or_empty (Some alpha_kwarg)))],
     Returns (tensor (real_vec 2)))
  /\ __torch_dispatch__ never_ignore no_tags dotted lift_breaks_on_3 fake_vec2 real_vec2
       add_Tensor [] two_real_args (Some alpha_kwarg)
     = (List.map EvFromTensor (tensor_leaves [TensorLeaf (real_vec 2); OpaqueLeaf (PyInt 1)])
          ++ [EvFromTensor (real_vec 3)],
        Raises (OtherException "broken")).
Proof.
  split.
  - assert (Hpre : forall x,
               x ∈ tensor_leaves [TensorLeaf (real_vec 2); OpaqueLeaf (PyInt 1)] ->
               is_fake x = false /\ lift_not_3 x = Returns (as_fake x)).
    { intros x Hx. simpl in Hx.
      apply elem_of_cons in Hx as [-> | Hx]; [split; reflexivity|].
      by apply elem_of_nil in Hx. }
    apply (proj1 (X16_lifting_stops_at_first_failure never_ignore no_tags dotted
             lift_not_3 fake_vec2 real_vec2 as_fake add_Tensor [] two_real_args
             (Some alpha_kwarg) [TensorLeaf (real_vec 2); OpaqueLeaf (PyInt 1)]
             [OpaqueLeaf (PyInt 2)] (real_vec 3)
             (UnsupportedFakeTensorException "unsupported")
             eq_refl eq_refl Hpre eq_refl eq_refl)).
    by exists "unsupported".
  - assert (Hpre : forall x,
               x ∈ tensor_leaves [TensorLeaf (real_vec 2); OpaqueLeaf (PyInt 1)] ->
               is_fake x = false /\ lift_breaks_on_3 x = Returns (as_fake x)).
    { intros x Hx. simpl in Hx.
      apply elem_of_cons in Hx as [-> | Hx]; [split; reflexivity|].
      by apply elem_of_nil in Hx. }
    apply (proj2 (X16_lifting_stops_at_first_failure never_ignore no_tags dotted
             lift_breaks_on_3 fake_vec2 real_vec2 as_fake add_Tensor [] two_real_args
             (Some alpha_kwarg) [TensorLeaf (real_vec 2); OpaqueLeaf (PyInt 1)]
             [OpaqueLeaf (PyInt 2)] (real_vec 3) (OtherException "broken")
             eq_refl eq_refl Hpre eq_refl eq_refl)).
    intros m E. discriminate E.
Defined.

Lemma X17_witness :
  real_unsupported add_Tensor (pack one_real_arg (kwargs_or_empty None))
  = Raises (UnsupportedFakeTensorException "raised for real").
Proof.
  apply (proj2 (X17_raised_exception_provenance never_ignore no_tags dotted lift
                  fake_vec2 real_unsupported add_Tensor [] one_real_arg None
                  (UnsupportedFakeTensorException "raised for real") eq_refl)
               "raised for real" eq_refl).
Defined.

End FakeUtilsExtra.
